(** * Metaflow deployer: the subprocess-mediated handle model

    A shallow embedding of

      - [metaflow/runner/deployer.py],
      - [metaflow/plugins/argo/argo_workflows_deployer_objects.py],
      - [metaflow/plugins/aws/step_functions/step_functions_deployer.py],

    followed by the properties of the deployer protocol that hold, or
    fail, on that code.

    Python objects are records, keyword dictionaries are [gmap string _],
    exceptions are values of [exn] carried by [result], and methods that
    assign attributes of [self] live in a state-and-error monad over the
    record they mutate. Collaborators whose code is elsewhere
    ([json.loads], the click API, the subprocess manager, [handle_timeout],
    the Argo client) enter through the record [Env]. *)

From Stdlib Require Import ZArith String Ascii List Bool Lia.
From stdpp Require Import base option list gmap strings.

Set Warnings "-register-all".
Open Scope string_scope.
Open Scope Z_scope.

(** ** Python values, exceptions, results *)

(** The values that travel through result payloads and keyword
    dictionaries. [PList] stands for lists and tuples alike. *)
Inductive pyval : Type :=
  | PNone
  | PBool (b : bool)
  | PInt (z : Z)
  | PStr (s : string)
  | PList (l : list pyval)
  | PDict (m : gmap string pyval).

(** A keyword dictionary, [**kwargs]. *)
Abbreviation kwargs := (gmap string pyval).

(** The exceptions the three modules raise or let through. [Exception]
    keeps the format string and its arguments apart, as the source builds
    the message with [%]. *)
Inductive exn : Type :=
  | ValueError (msg : string)
  | TypeError
  | AttributeError
  | JSONDecodeError
  | TimeoutError (msg : string)
  | NotImplementedError
  | Exception (fmt : string) (args : list pyval).

Inductive result (A : Type) : Type :=
  | Return (a : A)
  | Raise (e : exn).
Arguments Return {A} a.
Arguments Raise {A} e.

Definition bind {A B} (r : result A) (k : A -> result B) : result B :=
  match r with
  | Return a => k a
  | Raise e => Raise e
  end.

Declare Scope py_scope.
Delimit Scope py_scope with py.
Notation "'let!' x ':=' r 'in' k" := (bind r (fun x => k))
  (at level 10, x pattern, r at level 100, k at level 200) : py_scope.
Open Scope py_scope.

Definition is_raise {A} (r : result A) : Prop :=
  match r with Raise _ => True | Return _ => False end.

(** [try: body except TypeError: handler]. *)
Definition except_TypeError {A} (body : result A) (handler : result A)
  : result A :=
  match body with
  | Raise TypeError => handler
  | other => other
  end.

(** ** Strings *)

(** The double quote, which payload literals need. *)
Definition dquote : ascii := ascii_of_nat 34.
Definition q : string := String dquote EmptyString.

(** [s.replace(old, new)] for one-character [old] and [new]. *)
Fixpoint replace (old new : ascii) (s : string) : string :=
  match s with
  | EmptyString => EmptyString
  | String c s' =>
      String (if Ascii.eqb c old then new else c) (replace old new s')
  end.

(** [s.startswith(p)]. *)
Definition startswith (p s : string) : bool := String.prefix p s.

(** [s[n:]] for [n >= 0]. *)
Fixpoint slice_from (n : nat) (s : string) : string :=
  match n, s with
  | O, _ => s
  | S n', String _ s' => slice_from n' s'
  | S _, EmptyString => EmptyString
  end.

(** [s.split(sep)] for a one-character [sep]: never empty, one more piece
    than there are separators. *)
Fixpoint split (sep : ascii) (s : string) : list string :=
  match s with
  | EmptyString => [EmptyString]
  | String c s' =>
      if Ascii.eqb c sep then EmptyString :: split sep s'
      else match split sep s' with
           | piece :: pieces => String c piece :: pieces
           | [] => [String c EmptyString]
           end
  end.

(** [a, b = xs]: unpacking a sequence into exactly two targets. *)
Definition unpack2 {A} (xs : list A) : result (A * A) :=
  match xs with
  | [a; b] => Return (a, b)
  | [] | [_] => Raise (ValueError "not enough values to unpack")
  | _ => Raise (ValueError "too many values to unpack")
  end.

(** [v.split("/")] on a value that need not be a string: only [str] has
    the method. *)
Definition py_split (v : pyval) : result (list string) :=
  match v with
  | PStr s => Return (split "/"%char s)
  | _ => Raise AttributeError
  end.

(** [d.get(key, default)] on a value that need not be a dictionary. *)
Definition py_get (d : pyval) (key : string) (dflt : pyval)
  : result pyval :=
  match d with
  | PDict m => Return (default dflt (m !! key))
  | _ => Raise AttributeError
  end.

(** ** A decoder for the payload fragment of JSON

    [json.loads] is Python's; the operations below take the decoder as a
    parameter. This one is used to run them on concrete payloads. It reads
    [null], [true], [false], integers, strings without escapes, arrays and
    objects (a repeated key keeps its last value), with JSON's whitespace;
    everything else is a decoding error for it. *)
Module Json.

Definition is_ws (c : ascii) : bool :=
  existsb (Ascii.eqb c) [" "%char; ascii_of_nat 9; ascii_of_nat 10;
                         ascii_of_nat 13].

Fixpoint skip_ws (cs : list ascii) : list ascii :=
  match cs with
  | c :: cs' => if is_ws c then skip_ws cs' else cs
  | [] => []
  end.

Fixpoint strip (lit cs : list ascii) : option (list ascii) :=
  match lit, cs with
  | [], _ => Some cs
  | l :: lit', c :: cs' => if Ascii.eqb l c then strip lit' cs' else None
  | _ :: _, [] => None
  end.

Definition digit (c : ascii) : option Z :=
  let n := Z.of_nat (nat_of_ascii c) in
  if (48 <=? n) && (n <=? 57) then Some (n - 48) else None.

Fixpoint digits (acc : Z) (cs : list ascii) : Z * list ascii :=
  match cs with
  | c :: cs' =>
      match digit c with
      | Some d => digits (10 * acc + d) cs'
      | None => (acc, cs)
      end
  | [] => (acc, [])
  end.

(** An integer literal: [0] alone or a non-zero digit and more digits;
    a fraction or an exponent after it is outside the fragment. *)
Definition natural (cs : list ascii) : option (Z * list ascii) :=
  match cs with
  | c :: cs' =>
      match digit c with
      | Some d =>
          let '(n, rest) := if d =? 0 then (0, cs') else digits d cs' in
          match rest with
          | r :: _ =>
              if existsb (Ascii.eqb r) ["."%char; "e"%char; "E"%char]
              then None else Some (n, rest)
          | [] => Some (n, rest)
          end
      | None => None
      end
  | [] => None
  end.

(** The characters of a string literal after its opening quote. *)
Fixpoint chars (cs : list ascii) : option (string * list ascii) :=
  match cs with
  | [] => None
  | c :: cs' =>
      if Ascii.eqb c dquote then Some (EmptyString, cs')
      else if Ascii.eqb c (ascii_of_nat 92)
              || (nat_of_ascii c <? 32)%nat then None
      else match chars cs' with
           | Some (s, rest) => Some (String c s, rest)
           | None => None
           end
  end.

Fixpoint value (fuel : nat) (cs : list ascii)
  : option (pyval * list ascii) :=
  match fuel with
  | O => None
  | S fuel' =>
      match skip_ws cs with
      | [] => None
      | c :: rest =>
          if Ascii.eqb c "n" then
            option_map (pair PNone) (strip ["u"; "l"; "l"]%char rest)
          else if Ascii.eqb c "t" then
            option_map (pair (PBool true)) (strip ["r"; "u"; "e"]%char rest)
          else if Ascii.eqb c "f" then
            option_map (pair (PBool false))
                       (strip ["a"; "l"; "s"; "e"]%char rest)
          else if Ascii.eqb c dquote then
            match chars rest with
            | Some (s, rest') => Some (PStr s, rest')
            | None => None
            end
          else if Ascii.eqb c "[" then
            match skip_ws rest with
            | "]"%char :: rest' => Some (PList [], rest')
            | _ =>
                match elements fuel' rest with
                | Some (vs, rest') => Some (PList vs, rest')
                | None => None
                end
            end
          else if Ascii.eqb c "{" then
            match skip_ws rest with
            | "}"%char :: rest' => Some (PDict ∅, rest')
            | _ =>
                match members fuel' ∅ rest with
                | Some (m, rest') => Some (PDict m, rest')
                | None => None
                end
            end
          else if Ascii.eqb c "-" then
            match natural rest with
            | Some (n, rest') => Some (PInt (- n), rest')
            | None => None
            end
          else
            match natural (c :: rest) with
            | Some (n, rest') => Some (PInt n, rest')
            | None => None
            end
      end
  end
with elements (fuel : nat) (cs : list ascii)
  : option (list pyval * list ascii) :=
  match fuel with
  | O => None
  | S fuel' =>
      match value fuel' cs with
      | Some (v, rest) =>
          match skip_ws rest with
          | ","%char :: rest' =>
              match elements fuel' rest' with
              | Some (vs, rest'') => Some (v :: vs, rest'')
              | None => None
              end
          | "]"%char :: rest' => Some ([v], rest')
          | _ => None
          end
      | None => None
      end
  end
with members (fuel : nat) (acc : gmap string pyval) (cs : list ascii)
  : option (gmap string pyval * list ascii) :=
  match fuel with
  | O => None
  | S fuel' =>
      match skip_ws cs with
      | c :: rest =>
          if Ascii.eqb c dquote then
            match chars rest with
            | Some (key, rest') =>
                match skip_ws rest' with
                | ":"%char :: rest'' =>
                    match value fuel' rest'' with
                    | Some (v, rest3) =>
                        match skip_ws rest3 with
                        | ","%char :: rest4 =>
                            members fuel' (<[key := v]> acc) rest4
                        | "}"%char :: rest4 =>
                            Some (<[key := v]> acc, rest4)
                        | _ => None
                        end
                    | None => None
                    end
                | _ => None
                end
            | None => None
            end
          else None
      | [] => None
      end
  end.

(** [json.loads(s)], [None] standing for [JSONDecodeError]. *)
Definition loads (s : string) : option pyval :=
  let cs := list_ascii_of_string s in
  match value (2 * length cs + 2) cs with
  | Some (v, rest) =>
      match skip_ws rest with
      | [] => Some v
      | _ :: _ => None
      end
  | None => None
  end.

End Json.

(** ** The process runner, as the handles use it *)
Module Runner.

(** Modelled from the spec: the process record of the Process Runner
    ([metaflow.runner.subprocess_manager], not among the sources). A
    spawned child is tracked as running or completed; [reaped] says
    whether its exit has been collected, and only then does
    [command_obj.process.returncode] hold the exit status: until then
    it is [None]. *)
Record CommandManager : Type := {
  exit_status : Z;
  reaped : bool;
}.

Definition returncode (c : CommandManager) : option Z :=
  if reaped c then Some (exit_status c) else None.

(** Modelled from the spec: [sync_wait] blocks until the child has
    exited, after which its exit code is recorded. *)
Definition sync_wait (c : CommandManager) : CommandManager :=
  {| exit_status := exit_status c; reaped := true |}.

(** [command_obj.process.returncode == 0]; [None == 0] is [False]. *)
Definition returncode_eq_0 (c : CommandManager) : bool :=
  match returncode c with
  | Some z => z =? 0
  | None => false
  end.

End Runner.

(** ** The click API and the collaborators outside the three files *)

(** A lower-level command group: a lifecycle verb and its keyword
    options give the argument vector of the child, or fail. *)
Definition Group : Type := string -> gmap string pyval -> result (list string).

(** [getattr(api( **top_level_kwargs), _type)( **deployer_kwargs)]. *)
Definition MetaflowAPI : Type :=
  gmap string pyval -> string -> gmap string pyval -> result Group.

Record Env : Type := {
  (** [json.loads]; [None] is [JSONDecodeError]. *)
  json_loads : string -> option pyval;
  sys_executable : string;
  os_environ : gmap string string;
  (** [MetaflowAPI.from_cli(flow_file, start)]. *)
  from_cli : string -> MetaflowAPI;
  (** The name of the attribute file or fifo this invocation is given. *)
  attribute_file : string;
  (** [spm.get(spm.run_command(argv, env, cwd, show_output))]: the record
      of the child just spawned, in the state the spawn leaves it. *)
  run_command :
    list string -> gmap string string -> option string -> bool ->
    Runner.CommandManager;
  (** [handle_timeout(channel, command_obj, timeout)]: the payload read
      from the result channel or the failure of the read, and the
      process record afterwards. *)
  handle_timeout :
    string -> Runner.CommandManager -> option Z ->
    result string * Runner.CommandManager;
  (** [DEFAULT_FROM_DEPLOYMENT_IMPL] of [metaflow_config]. *)
  DEFAULT_FROM_DEPLOYMENT_IMPL : string;
  (** [ArgoWorkflows.get_workflow_status(flow_name, name)] at a given
      time: a status string or [None]. *)
  get_workflow_status : Z -> string -> string -> option string;
  (** [Run(pathspec, _namespace_check=False)] at a given time; [None]
      when it raises [MetaflowNotFound]. *)
  Run : Z -> pyval -> option pyval;
  (** [get_status_considering_run_object(status, run)]. *)
  get_status_considering_run_object : string -> option pyval -> string;
  (** [ArgoWorkflows.get_existing_deployment(name)]: [None], a tuple, or
      an exception of its own. *)
  get_existing_deployment : pyval -> result (option (list pyval));
}.

(** [f(k1=v1, ..., **star)]: a keyword given both ways is a [TypeError]. *)
Definition call_kw (explicit : list (string * pyval))
    (star : gmap string pyval) : result (gmap string pyval) :=
  if existsb (fun kv => bool_decide (is_Some (star !! kv.1))) explicit
  then Raise TypeError
  else Return (list_to_map explicit ∪ star).

(** * metaflow/runner/deployer.py *)

Definition get_lower_level_group (api : MetaflowAPI)
    (top_level_kwargs : gmap string pyval) (_type : option string)
    (deployer_kwargs : gmap string pyval) : result Group :=
  match _type with
  | None =>
      Raise (ValueError
        "DeployerImpl doesn't have a 'TYPE' to target. Please use a sub-class of DeployerImpl.")
  | Some t => api top_level_kwargs t deployer_kwargs
  end.

Module Deployer.

Record t : Type := {
  flow_file : string;
  show_output : bool;
  profile : option string;
  env : option (gmap string string);
  cwd : option string;
  file_read_timeout : Z;
  top_level_kwargs : gmap string pyval;
}.

(** [Deployer.__init__], with the defaults of its signature written
    out by the caller. The names of the six parameters cannot occur in
    [kwargs]: Python binds them to the parameters. *)
Definition __init__ (flow_file : string) (show_output : bool)
    (profile : option string) (env : option (gmap string string))
    (cwd : option string) (file_read_timeout : Z)
    (kwargs : gmap string pyval) : t :=
  {| flow_file := flow_file; show_output := show_output;
     profile := profile; env := env; cwd := cwd;
     file_read_timeout := file_read_timeout;
     top_level_kwargs := kwargs |}.

End Deployer.

Module DeployerImpl.

Record t : Type := {
  TYPE : option string;
  deployer_kwargs : gmap string pyval;
  flow_file : string;
  show_output : bool;
  profile : option string;
  env : option (gmap string string);
  cwd : option string;
  file_read_timeout : Z;
  env_vars : gmap string string;
  top_level_kwargs : gmap string pyval;
  api : MetaflowAPI;
  (** The attributes [_create] assigns; [None] while unassigned. *)
  name : option pyval;
  flow_name : option pyval;
  metadata : option pyval;
  additional_info : option pyval;
}.

(** The keyword arguments a provider class is constructed with. *)
Record InitArgs : Type := {
  a_deployer_kwargs : gmap string pyval;
  a_flow_file : string;
  a_show_output : bool;
  a_profile : option string;
  a_env : option (gmap string string);
  a_cwd : option string;
  a_file_read_timeout : Z;
  a_kwargs : gmap string pyval;
}.

(** [if self.profile:] *)
Definition truthy (s : option string) : bool :=
  match s with
  | Some (String _ _) => true
  | _ => false
  end.

(** [DeployerImpl.__init__] for a class whose [TYPE] and
    [deployer_kwargs] are given. *)
Definition __init__ (E : Env) (TYPE : option string) (a : InitArgs)
  : result t :=
  match TYPE with
  | None =>
      Raise (ValueError
        "DeployerImpl doesn't have a 'TYPE' to target. Please use a sub-class of DeployerImpl.")
  | Some _ =>
      let env_vars := default ∅ (a_env a) ∪ os_environ E in
      let env_vars :=
        if truthy (a_profile a)
        then <["METAFLOW_PROFILE" := default EmptyString (a_profile a)]>
               env_vars
        else env_vars in
      Return
        {| TYPE := TYPE; deployer_kwargs := a_deployer_kwargs a;
           flow_file := a_flow_file a; show_output := a_show_output a;
           profile := a_profile a; env := a_env a; cwd := a_cwd a;
           file_read_timeout := a_file_read_timeout a;
           env_vars := env_vars; top_level_kwargs := a_kwargs a;
           api := from_cli E (a_flow_file a);
           name := None; flow_name := None; metadata := None;
           additional_info := None |}
  end.

Definition set_name (v : pyval) (self : t) : t :=
  {| TYPE := TYPE self; deployer_kwargs := deployer_kwargs self;
     flow_file := flow_file self; show_output := show_output self;
     profile := profile self; env := env self; cwd := cwd self;
     file_read_timeout := file_read_timeout self;
     env_vars := env_vars self; top_level_kwargs := top_level_kwargs self;
     api := api self;
     name := Some v; flow_name := flow_name self;
     metadata := metadata self; additional_info := additional_info self |}.

Definition set_flow_name (v : pyval) (self : t) : t :=
  {| TYPE := TYPE self; deployer_kwargs := deployer_kwargs self;
     flow_file := flow_file self; show_output := show_output self;
     profile := profile self; env := env self; cwd := cwd self;
     file_read_timeout := file_read_timeout self;
     env_vars := env_vars self; top_level_kwargs := top_level_kwargs self;
     api := api self;
     name := name self; flow_name := Some v;
     metadata := metadata self; additional_info := additional_info self |}.

Definition set_metadata (v : pyval) (self : t) : t :=
  {| TYPE := TYPE self; deployer_kwargs := deployer_kwargs self;
     flow_file := flow_file self; show_output := show_output self;
     profile := profile self; env := env self; cwd := cwd self;
     file_read_timeout := file_read_timeout self;
     env_vars := env_vars self; top_level_kwargs := top_level_kwargs self;
     api := api self;
     name := name self; flow_name := flow_name self;
     metadata := Some v; additional_info := additional_info self |}.

Definition set_additional_info (v : pyval) (self : t) : t :=
  {| TYPE := TYPE self; deployer_kwargs := deployer_kwargs self;
     flow_file := flow_file self; show_output := show_output self;
     profile := profile self; env := env self; cwd := cwd self;
     file_read_timeout := file_read_timeout self;
     env_vars := env_vars self; top_level_kwargs := top_level_kwargs self;
     api := api self;
     name := name self; flow_name := flow_name self;
     metadata := metadata self; additional_info := Some v |}.

End DeployerImpl.

(** Methods that assign attributes of [self]: the record goes in, the
    outcome and the record as the method leaves it come out. An exception
    keeps the assignments made before it. *)
Definition method (S A : Type) : Type := S -> result A * S.

Definition mret {S A} (a : A) : method S A := fun self => (Return a, self).
Definition mraise {S A} (e : exn) : method S A := fun self => (Raise e, self).
Definition mlift {S A} (r : result A) : method S A := fun self => (r, self).
Definition mself {S} : method S S := fun self => (Return self, self).
Definition massign {S} (f : S -> S) : method S unit :=
  fun self => (Return tt, f self).
Definition mbind {S A B} (m : method S A) (k : A -> method S B)
  : method S B :=
  fun self =>
    match m self with
    | (Return a, self') => k a self'
    | (Raise e, self') => (Raise e, self')
    end.

Notation "'do!' x ':=' m 'in' k" := (mbind m (fun x => k))
  (at level 10, x pattern, m at level 100, k at level 200) : py_scope.
Notation "m1 ';;' m2" := (mbind m1 (fun _ => m2))
  (at level 100, m2 at level 200, right associativity) : py_scope.

Module TriggeredRun.

Record t : Type := {
  deployer : DeployerImpl.t;
  metadata_for_flow : pyval;
  pathspec : pyval;
  name : pyval;
}.

Definition __init__ (E : Env) (deployer : DeployerImpl.t)
    (content : string) : result t :=
  match json_loads E content with
  | None => Raise JSONDecodeError
  | Some content_json =>
      let! metadata := py_get content_json "metadata" PNone in
      let! pathspec := py_get content_json "pathspec" PNone in
      let! name := py_get content_json "name" PNone in
      Return {| deployer := deployer; metadata_for_flow := metadata;
                pathspec := pathspec; name := name |}
  end.

(** The [run] property at a given time: the [Run] object, or [None]
    while the lookup raises [MetaflowNotFound]. *)
Definition run (E : Env) (now : Z) (self : t) : option pyval :=
  Run E now (pathspec self).

End TriggeredRun.

Module DeployedFlow.

Record t : Type := {
  deployer : DeployerImpl.t;
  name : pyval;
  flow_name : pyval;
  metadata : pyval;
}.

(** Reading an attribute of the deployer that was never assigned is an
    [AttributeError]. *)
Definition getattr (a : option pyval) : result pyval :=
  match a with
  | Some v => Return v
  | None => Raise AttributeError
  end.

Definition __init__ (deployer : DeployerImpl.t) : result t :=
  let! name := getattr (DeployerImpl.name deployer) in
  let! flow_name := getattr (DeployerImpl.flow_name deployer) in
  let! metadata := getattr (DeployerImpl.metadata deployer) in
  Return {| deployer := deployer; name := name; flow_name := flow_name;
            metadata := metadata |}.

(** The static method in the class body. [argo_from_deployment] is
    [metaflow.plugins.argo.argo_workflows_deployer.from_deployment]. *)
Definition from_deployment
    (argo_from_deployment : string -> option string -> result t)
    (identifier : string) (metadata : option string) (impl : string)
  : result t :=
  if String.eqb impl "argo-workflows"
  then argo_from_deployment identifier metadata
  else Raise NotImplementedError.

End DeployedFlow.

(** A class of [DEPLOYER_IMPL_PROVIDERS] ([metaflow.plugins], not among
    the sources): its [TYPE], the class of handles it deploys with that
    class's [from_deployment], and its constructor. *)
Record DeployedFlowClass : Type := {
  cls_from_deployment :
    string -> option string -> string -> result DeployedFlow.t;
}.

Record ProviderClass : Type := {
  TYPE : option string;
  DEPLOYED_FLOW_TYPE : option DeployedFlowClass;
  construct : DeployerImpl.InitArgs -> result DeployerImpl.t;
}.

(** [provider.TYPE.replace("-", "_")]; [None] has no [replace]. *)
Definition method_name (provider : ProviderClass) : result string :=
  match TYPE provider with
  | Some type => Return (replace "-" "_" type)
  | None => Raise AttributeError
  end.

Module DeployerMeta.

(** A method injected in [Deployer]: [self] and the call's keyword
    arguments give a bound deployer or fail. *)
Definition injected : Type :=
  Deployer.t -> gmap string pyval -> result DeployerImpl.t.

Definition explicit_keywords : list string :=
  ["deployer_kwargs"; "flow_file"; "show_output"; "profile"; "env"; "cwd";
   "file_read_timeout"].

Definition _injected_method
    (deployer_class : DeployerImpl.InitArgs -> result DeployerImpl.t)
  : injected :=
  fun self deployer_kwargs =>
    if existsb
         (fun k => bool_decide (is_Some (Deployer.top_level_kwargs self !! k)))
         explicit_keywords
    then Raise TypeError
    else
      deployer_class
        {| DeployerImpl.a_deployer_kwargs := deployer_kwargs;
           DeployerImpl.a_flow_file := Deployer.flow_file self;
           DeployerImpl.a_show_output := Deployer.show_output self;
           DeployerImpl.a_profile := Deployer.profile self;
           DeployerImpl.a_env := Deployer.env self;
           DeployerImpl.a_cwd := Deployer.cwd self;
           DeployerImpl.a_file_read_timeout := Deployer.file_read_timeout self;
           DeployerImpl.a_kwargs := Deployer.top_level_kwargs self |}.

(** The loop of [__new__]: one [setattr] per provider, in order, on the
    class attributes [cls]. *)
Fixpoint inject (providers : list ProviderClass)
    (cls : gmap string injected) : result (gmap string injected) :=
  match providers with
  | [] => Return cls
  | provider_class :: rest =>
      let! method_name := method_name provider_class in
      inject rest
        (<[method_name := _injected_method (construct provider_class)]> cls)
  end.

Definition __new__ (DEPLOYER_IMPL_PROVIDERS : list ProviderClass)
    (dct : gmap string injected) : result (gmap string injected) :=
  inject DEPLOYER_IMPL_PROVIDERS dct.

End DeployerMeta.

Module DeployedFlowMeta.

(** The dictionary comprehension: a later provider replaces an earlier
    one under the same key. *)
Fixpoint allowed_providers (providers : list ProviderClass)
    (acc : gmap string ProviderClass) : result (gmap string ProviderClass) :=
  match providers with
  | [] => Return acc
  | provider :: rest =>
      let! key := method_name provider in
      allowed_providers rest (<[key := provider]> acc)
  end.

(** The default of [impl]. *)
Definition default_impl (E : Env) : string :=
  replace "-" "_" (DEFAULT_FROM_DEPLOYMENT_IMPL E).

(** The injected [from_deployment]: the handle, or Python's [None] when
    the function falls off its end. *)
Definition f (allowed : gmap string ProviderClass)
    (identifier : string) (metadata : option string) (impl : string)
  : result (option DeployedFlow.t) :=
  match allowed !! impl with
  | Some provider =>
      match DEPLOYED_FLOW_TYPE provider with
      | Some flow_type =>
          let! flow := cls_from_deployment flow_type identifier metadata impl in
          Return (Some flow)
      | None => Raise AttributeError
      end
  | None => Return None
  end.

(** [__new__] ends with [setattr(cls, "from_deployment", f)], which
    replaces the static method of the class body. *)
Definition __new__ (DEPLOYER_IMPL_PROVIDERS : list ProviderClass)
  : result (string -> option string -> string ->
            result (option DeployedFlow.t)) :=
  let! allowed := allowed_providers DEPLOYER_IMPL_PROVIDERS ∅ in
  Return (f allowed).

End DeployedFlowMeta.

(** [DeployerImpl._create]. *)
Definition _create (E : Env)
    (create_class : DeployerImpl.t -> result DeployedFlow.t)
    (kwargs : gmap string pyval)
  : method DeployerImpl.t DeployedFlow.t :=
  do! self := mself in
  do! command := mlift (
    let! group := get_lower_level_group (DeployerImpl.api self)
                    (DeployerImpl.top_level_kwargs self)
                    (DeployerImpl.TYPE self)
                    (DeployerImpl.deployer_kwargs self) in
    let! kw := call_kw [("deployer_attribute_file", PStr (attribute_file E))]
                 kwargs in
    group "create" kw) in
  let command_obj :=
    run_command E (sys_executable E :: command) (DeployerImpl.env_vars self)
      (DeployerImpl.cwd self) (DeployerImpl.show_output self) in
  let '(content, command_obj) :=
    handle_timeout E (attribute_file E) command_obj
      (Some (DeployerImpl.file_read_timeout self)) in
  do! content := mlift content in
  do! content := mlift (match json_loads E content with
                        | Some v => Return v
                        | None => Raise JSONDecodeError
                        end) in
  do! name := mlift (py_get content "name" PNone) in
  massign (DeployerImpl.set_name name) ;;
  do! flow_name := mlift (py_get content "flow_name" PNone) in
  massign (DeployerImpl.set_flow_name flow_name) ;;
  do! metadata := mlift (py_get content "metadata" PNone) in
  massign (DeployerImpl.set_metadata metadata) ;;
  do! additional_info := mlift (py_get content "additional_info" (PDict ∅)) in
  massign (DeployerImpl.set_additional_info additional_info) ;;
  if Runner.returncode_eq_0 command_obj then
    do! self := mself in
    mlift (create_class self)
  else
    do! self := mself in
    mraise (Exception "Error deploying %s to %s"
              [PStr (DeployerImpl.flow_file self);
               from_option PStr PNone (DeployerImpl.TYPE self)]).


(** * metaflow/plugins/argo/argo_workflows_deployer_objects.py *)

Module ArgoWorkflowsTriggeredRun.

(** [suspend], [unsuspend] and [terminate] have one body, which differs
    in the verb of the command group only. *)
Definition lifecycle (E : Env) (verb : string) (self : TriggeredRun.t)
    (kwargs : gmap string pyval) : result bool :=
  let! pieces := py_split (TriggeredRun.pathspec self) in
  let! (_, run_id) := unpack2 pieces in
  let deployer := TriggeredRun.deployer self in
  let! group := get_lower_level_group (DeployerImpl.api deployer)
                  (DeployerImpl.top_level_kwargs deployer)
                  (DeployerImpl.TYPE deployer)
                  (DeployerImpl.deployer_kwargs deployer) in
  let! kw := call_kw [("run_id", PStr run_id)] kwargs in
  let! command := group verb kw in
  let command_obj :=
    run_command E (sys_executable E :: command)
      (DeployerImpl.env_vars deployer) (DeployerImpl.cwd deployer)
      (DeployerImpl.show_output deployer) in
  let command_obj := Runner.sync_wait command_obj in
  Return (Runner.returncode_eq_0 command_obj).

Definition suspend (E : Env) := lifecycle E "suspend".
Definition unsuspend (E : Env) := lifecycle E "unsuspend".
Definition terminate (E : Env) := lifecycle E "terminate".

(** The arguments [status] passes to [get_workflow_status]: the flow
    name, and the run id without its first five characters. *)
Definition status_query (self : TriggeredRun.t) : result (string * string) :=
  let! pieces := py_split (TriggeredRun.pathspec self) in
  let! (flow_name, run_id) := unpack2 pieces in
  let name := slice_from 5 run_id in
  Return (flow_name, name).

(** The [status] property, read at time [now]. *)
Definition status (E : Env) (now : Z) (self : TriggeredRun.t)
  : result (option string) :=
  let! (flow_name, name) := status_query self in
  match get_workflow_status E now flow_name name with
  | Some status =>
      Return (Some (get_status_considering_run_object E status
                      (TriggeredRun.run E now self)))
  | None => Return None
  end.

(** The [is_running] property, read at time [now]. *)
Definition is_running (E : Env) (now : Z) (self : TriggeredRun.t)
  : result bool :=
  let! workflow_status := status E now self in
  Return (match workflow_status with
          | Some s => bool_decide (s ∈ ["Pending"; "Running"])
          | None => false
          end).

(** [timeout is not None and (time.time() - start_time) > timeout]. *)
Definition timed_out (timeout : option Z) (start_time now : Z) : bool :=
  match timeout with
  | Some t => now - start_time >? t
  | None => false
  end.

(** [time.sleep(secs)] on the logical clock: the time moves by [secs];
    a negative length is a [ValueError]. *)
Definition sleep (secs : Z) (now : Z) : result Z :=
  if secs <? 0 then Raise (ValueError "sleep length must be non-negative")
  else Return (now + secs).

(** The [while self.is_running] loop, with the clock threaded through
    it: [fuel] bounds the number of polls, and [None] says the bound
    was reached with the loop still going. The outcome comes with the
    time at which the loop ended. *)
Fixpoint wait_loop (E : Env) (fuel : nat) (self : TriggeredRun.t)
    (check_interval : Z) (timeout : option Z) (start_time now : Z)
  : option (result unit * Z) :=
  match fuel with
  | O => None
  | S fuel' =>
      match is_running E now self with
      | Raise e => Some (Raise e, now)
      | Return false => Some (Return tt, now)
      | Return true =>
          if timed_out timeout start_time now then
            Some (Raise (TimeoutError
                    "Workflow did not complete within specified timeout."),
                  now)
          else
            match sleep check_interval now with
            | Raise e => Some (Raise e, now)
            | Return now' =>
                wait_loop E fuel' self check_interval timeout start_time now'
            end
      end
  end.

Definition wait_for_completion (E : Env) (fuel : nat) (self : TriggeredRun.t)
    (check_interval : Z) (timeout : option Z) (now : Z)
  : option (result unit * Z) :=
  let start_time := now in
  wait_loop E fuel self check_interval timeout start_time now.

End ArgoWorkflowsTriggeredRun.

Module ArgoWorkflowsDeployedFlow.

Definition TYPE : option string := Some "argo-workflows".

(** [from_deployment], lines 286 to 294: the project options encoded in
    the branch annotation. A value that is neither [None] nor a string
    has no [startswith]. *)
Definition project_kwargs (branch_name : pyval)
  : result (gmap string pyval) :=
  match branch_name with
  | PNone => Return ∅
  | PStr branch_name =>
      if startswith "prod." branch_name then
        Return (<["branch" :=
                    PStr (slice_from (String.length "prod.") branch_name)]>
                  (<["production" := PBool true]> ∅))
      else if startswith "test." branch_name then
        Return (<["branch" :=
                    PStr (slice_from (String.length "test.") branch_name)]> ∅)
      else if String.eqb branch_name "prod" then
        Return (<["production" := PBool true]> ∅)
      else Return ∅
  | _ => Raise AttributeError
  end.

(** [from_deployment], lines 304 to 313: the [Deployer] the handle is
    rebuilt from, and the keyword arguments of the [argo_workflows] call
    on it. *)
Definition from_deployment_deployer (fake_flow_file : string)
    (username identifier : string) (branch_name : pyval)
  : result (Deployer.t * gmap string pyval) :=
  let! project_kwargs := project_kwargs branch_name in
  let env := Some ({["METAFLOW_USER" := username]} : gmap string string) in
  match branch_name with
  | PNone =>
      Return (Deployer.__init__ fake_flow_file true None env None 3600 ∅,
              {["name" := PStr identifier]})
  | _ =>
      Return (Deployer.__init__ fake_flow_file true None env None 3600
                project_kwargs,
              ∅)
  end.

(** The [production_token] property. Unpacking [None] into two targets
    is a [TypeError]. *)
Definition unpack_lookup (r : option (list pyval)) : result (pyval * pyval) :=
  match r with
  | Some items => unpack2 items
  | None => Raise TypeError
  end.

Definition production_token (E : Env) (self : DeployedFlow.t)
  : result pyval :=
  except_TypeError
    (let! name := DeployedFlow.getattr
                    (DeployerImpl.name (DeployedFlow.deployer self)) in
     let! r := get_existing_deployment E name in
     let! (_, production_token) := unpack_lookup r in
     Return production_token)
    (Return PNone).

Definition delete (E : Env) (self : DeployedFlow.t)
    (kwargs : gmap string pyval) : result bool :=
  let deployer := DeployedFlow.deployer self in
  let! group := get_lower_level_group (DeployerImpl.api deployer)
                  (DeployerImpl.top_level_kwargs deployer)
                  (DeployerImpl.TYPE deployer)
                  (DeployerImpl.deployer_kwargs deployer) in
  let! command := group "delete" kwargs in
  let command_obj :=
    run_command E (sys_executable E :: command)
      (DeployerImpl.env_vars deployer) (DeployerImpl.cwd deployer)
      (DeployerImpl.show_output deployer) in
  let command_obj := Runner.sync_wait command_obj in
  Return (Runner.returncode_eq_0 command_obj).

Definition trigger (E : Env) (self : DeployedFlow.t)
    (kwargs : gmap string pyval) : result TriggeredRun.t :=
  let deployer := DeployedFlow.deployer self in
  let! group := get_lower_level_group (DeployerImpl.api deployer)
                  (DeployerImpl.top_level_kwargs deployer)
                  (DeployerImpl.TYPE deployer)
                  (DeployerImpl.deployer_kwargs deployer) in
  let! kw := call_kw [("deployer_attribute_file", PStr (attribute_file E))]
               kwargs in
  let! command := group "trigger" kw in
  let command_obj :=
    run_command E (sys_executable E :: command)
      (DeployerImpl.env_vars deployer) (DeployerImpl.cwd deployer)
      (DeployerImpl.show_output deployer) in
  let '(content, command_obj) :=
    handle_timeout E (attribute_file E) command_obj
      (Some (DeployerImpl.file_read_timeout deployer)) in
  let! content := content in
  let command_obj := Runner.sync_wait command_obj in
  if Runner.returncode_eq_0 command_obj then
    TriggeredRun.__init__ E deployer content
  else
    let! name := DeployedFlow.getattr (DeployerImpl.name deployer) in
    Raise (Exception "Error triggering %s on %s for %s"
             [name; from_option PStr PNone (DeployerImpl.TYPE deployer);
              PStr (DeployerImpl.flow_file deployer)]).

End ArgoWorkflowsDeployedFlow.

(** * metaflow/plugins/aws/step_functions/step_functions_deployer.py *)

Module StepFunctions.

(** [terminate]: the return code is read as the spawn left it. *)
Definition terminate (E : Env) (instance : TriggeredRun.t)
    (kwargs : gmap string pyval) : result bool :=
  let! pieces := py_split (TriggeredRun.pathspec instance) in
  let! (_, run_id) := unpack2 pieces in
  let deployer := TriggeredRun.deployer instance in
  let! group := get_lower_level_group (DeployerImpl.api deployer)
                  (DeployerImpl.top_level_kwargs deployer)
                  (DeployerImpl.TYPE deployer)
                  (DeployerImpl.deployer_kwargs deployer) in
  let! kw := call_kw [("run_id", PStr run_id)] kwargs in
  let! command := group "terminate" kw in
  let command_obj :=
    run_command E (sys_executable E :: command)
      (DeployerImpl.env_vars deployer) (DeployerImpl.cwd deployer)
      (DeployerImpl.show_output deployer) in
  Return (Runner.returncode_eq_0 command_obj).

(** [list_runs] and [delete] have one body, which differs in the verb
    only ([getattr(group, "list-runs")] and [group.delete]). *)
Definition on_flow (E : Env) (verb : string) (instance : DeployedFlow.t)
    (kwargs : gmap string pyval) : result bool :=
  let deployer := DeployedFlow.deployer instance in
  let! group := get_lower_level_group (DeployerImpl.api deployer)
                  (DeployerImpl.top_level_kwargs deployer)
                  (DeployerImpl.TYPE deployer)
                  (DeployerImpl.deployer_kwargs deployer) in
  let! command := group verb kwargs in
  let command_obj :=
    run_command E (sys_executable E :: command)
      (DeployerImpl.env_vars deployer) (DeployerImpl.cwd deployer)
      (DeployerImpl.show_output deployer) in
  Return (Runner.returncode_eq_0 command_obj).

Definition list_runs (E : Env) := on_flow E "list-runs".
Definition delete (E : Env) := on_flow E "delete".

End StepFunctions.

Module StepFunctionsDeployer.

Definition TYPE : option string := Some "step-functions".

(** [__init__(self, deployer_kwargs, **kwargs)]: the keyword options are
    stored, the rest goes to [DeployerImpl.__init__]. *)
Definition __init__ (E : Env) (a : DeployerImpl.InitArgs)
  : result DeployerImpl.t :=
  DeployerImpl.__init__ E TYPE a.

End StepFunctionsDeployer.

(** * The rest of the three files *)

(** ** [TriggeredRun.wait_for_run] (deployer.py) *)

(** The interval between two polls of [wait_for_run]. *)
Definition wait_for_run_check_interval : Z := 5.

(** The [while True] loop of [wait_for_run] on the logical clock, with
    [fuel] bounding the number of polls as in [wait_loop]. Each poll
    reads the [run] property; a run that is there is read once more and
    returned. *)
Fixpoint wait_for_run_loop (E : Env) (fuel : nat) (self : TriggeredRun.t)
    (timeout : option Z) (start_time now : Z)
  : option (result (option pyval) * Z) :=
  match fuel with
  | O => None
  | S fuel' =>
      match TriggeredRun.run E now self with
      | Some _ => Some (Return (TriggeredRun.run E now self), now)
      | None =>
          if ArgoWorkflowsTriggeredRun.timed_out timeout start_time now then
            Some (Raise (TimeoutError
                    "Timed out waiting for the run object to become available."),
                  now)
          else
            match ArgoWorkflowsTriggeredRun.sleep
                    wait_for_run_check_interval now with
            | Raise e => Some (Raise e, now)
            | Return now' =>
                wait_for_run_loop E fuel' self timeout start_time now'
            end
      end
  end.

Definition wait_for_run (E : Env) (fuel : nat) (self : TriggeredRun.t)
    (timeout : option Z) (now : Z) : option (result (option pyval) * Z) :=
  let start_time := now in
  wait_for_run_loop E fuel self timeout start_time now.

(** ** [from_deployment] of the Argo flow, around the project options *)

Module ArgoFromDeployment.

(** [json.loads(v)] on a value that need not be a string: anything but a
    string is a [TypeError]. *)
Definition loads (E : Env) (v : pyval) : result pyval :=
  match v with
  | PStr s =>
      match json_loads E s with
      | Some decoded => Return decoded
      | None => Raise JSONDecodeError
      end
  | _ => Raise TypeError
  end.

(** What lines 274 to 284 read in the annotations of the template. *)
Record Annotations : Type := {
  flow_name : pyval;
  username : pyval;
  parameters : pyval;
  branch_name : pyval;
  project_name : pyval;
}.

(** Lines 274 to 284, for the template the client found (a dictionary;
    with no template [from_deployment] has raised before). *)
Definition annotations (E : Env) (workflow_template : gmap string pyval)
  : result Annotations :=
  let! metadata_annotations :=
    py_get (default (PDict ∅) (workflow_template !! "metadata"))
      "annotations" (PDict ∅) in
  let! flow_name :=
    py_get metadata_annotations "metaflow/flow_name" (PStr EmptyString) in
  let! username :=
    py_get metadata_annotations "metaflow/owner" (PStr EmptyString) in
  let! raw := py_get metadata_annotations "metaflow/parameters" (PDict ∅) in
  let! parameters := loads E raw in
  let! branch_name :=
    py_get metadata_annotations "metaflow/branch_name" PNone in
  let! project_name :=
    py_get metadata_annotations "metaflow/project_name" PNone in
  Return {| flow_name := flow_name; username := username;
            parameters := parameters; branch_name := branch_name;
            project_name := project_name |}.

(** Lines 315 to 322: the identity of the rebuilt deployer [d] is
    assigned, and the handle made of it. [current_metadata] is what
    [get_metadata()] gives. *)
Definition stamp (current_metadata : pyval) (identifier : string)
    (flow_name : pyval) (metadata : option string)
  : method DeployerImpl.t DeployedFlow.t :=
  massign (DeployerImpl.set_name (PStr identifier)) ;;
  massign (DeployerImpl.set_flow_name flow_name) ;;
  massign (DeployerImpl.set_metadata
             (match metadata with
              | None => current_metadata
              | Some metadata => PStr metadata
              end)) ;;
  do! d := mself in
  mlift (DeployedFlow.__init__ d).

End ArgoFromDeployment.

(** ** [production_token] of step-functions *)

(** [StepFunctions.get_existing_deployment] is not among the sources:
    [lookup] is what it gives for the name, as for Argo. Nothing catches
    the failure of the unpacking here. *)
Definition sfn_production_token
    (lookup : pyval -> result (option (list pyval)))
    (instance : DeployedFlow.t) : result pyval :=
  let! name := DeployedFlow.getattr
                 (DeployerImpl.name (DeployedFlow.deployer instance)) in
  let! r := lookup name in
  let! (_, production_token) := ArgoWorkflowsDeployedFlow.unpack_lookup r in
  Return production_token.

(** * Vocabulary of the statements *)

(** The command vector [_create] builds before it spawns the child. *)
Definition create_command (E : Env) (kwargs : gmap string pyval)
    (self : DeployerImpl.t) : result (list string) :=
  let! group := get_lower_level_group (DeployerImpl.api self)
                  (DeployerImpl.top_level_kwargs self)
                  (DeployerImpl.TYPE self)
                  (DeployerImpl.deployer_kwargs self) in
  let! kw := call_kw [("deployer_attribute_file", PStr (attribute_file E))]
               kwargs in
  group "create" kw.

(** The child a deployer spawns for a command vector. *)
Definition spawn (E : Env) (command : list string) (self : DeployerImpl.t)
  : Runner.CommandManager :=
  run_command E (sys_executable E :: command) (DeployerImpl.env_vars self)
    (DeployerImpl.cwd self) (DeployerImpl.show_output self).

(** What [handle_timeout] gives for that child. *)
Definition read_payload (E : Env) (command : list string)
    (self : DeployerImpl.t) : result string * Runner.CommandManager :=
  handle_timeout E (attribute_file E) (spawn E command self)
    (Some (DeployerImpl.file_read_timeout self)).

(** The four attributes as [_create] assigns them from a payload
    object. *)
Definition payload_fields (m : gmap string pyval) (self : DeployerImpl.t)
  : DeployerImpl.t :=
  DeployerImpl.set_additional_info (default (PDict ∅) (m !! "additional_info"))
    (DeployerImpl.set_metadata (default PNone (m !! "metadata"))
       (DeployerImpl.set_flow_name (default PNone (m !! "flow_name"))
          (DeployerImpl.set_name (default PNone (m !! "name")) self))).

(** A payload that decodes to a JSON object. *)
Definition is_object (E : Env) (content : string) : Prop :=
  exists m, json_loads E content = Some (PDict m).

(** No [/] in a string. *)
Fixpoint no_slash (s : string) : bool :=
  match s with
  | EmptyString => true
  | String c s' => negb (Ascii.eqb c "/") && no_slash s'
  end.

(** The time of the [i]-th poll of a wait that starts at [start]. *)
Definition poll (start check_interval : Z) (i : nat) : Z :=
  start + Z.of_nat i * check_interval.

(** The first poll at which more than [timeout] has elapsed. *)
Definition deadline_poll (check_interval timeout : Z) : nat :=
  Z.to_nat (timeout / check_interval + 1).

(** [is_running] says yes at time [now]. *)
Definition running_at (E : Env) (self : TriggeredRun.t) (now : Z) : Prop :=
  ArgoWorkflowsTriggeredRun.is_running E now self = Return true.

(** * Concrete environments *)

Module Sample.

(** A string literal of a payload. *)
Definition jstr (s : string) : string := q ++ s ++ q.

(** The click API of a flow: every group has every verb, and the
    command names the flow file, the group and the verb. *)
Definition api (flow_file : string) : MetaflowAPI :=
  fun _ type _ => Return (fun verb _ => Return [flow_file; type; verb]).

(** An environment in which every child behaves as [child], writes
    [payload], the orchestrator reports [status_at] and the deployment
    lookup gives [lookup]. *)
Definition env (child : Runner.CommandManager) (payload : result string)
    (status_at : Z -> option string)
    (lookup : result (option (list pyval))) : Env :=
  {| json_loads := Json.loads;
     sys_executable := "python";
     os_environ := ∅;
     from_cli := api;
     attribute_file := "/tmp/attribute";
     run_command := fun _ _ _ _ => child;
     handle_timeout := fun _ command_obj _ => (payload, command_obj);
     DEFAULT_FROM_DEPLOYMENT_IMPL := "argo-workflows";
     get_workflow_status := fun now _ _ => status_at now;
     Run := fun _ _ => None;
     get_status_considering_run_object := fun status _ => status;
     get_existing_deployment := fun _ => lookup |}.

(** An orchestrator that reports the run as running until [finish], and
    as succeeded from then on. *)
Definition running_until (finish : Z) : Z -> option string :=
  fun now => if now <? finish then Some "Running" else Some "Succeeded".

Definition exited (code : Z) : Runner.CommandManager :=
  {| Runner.exit_status := code; Runner.reaped := true |}.

Definition still_running (code : Z) : Runner.CommandManager :=
  {| Runner.exit_status := code; Runner.reaped := false |}.

(** [Deployer("flow.py")], and its step-functions deployer with
    [name="my-flow"]. *)
Definition deployer : Deployer.t :=
  Deployer.__init__ "flow.py" true None None None 3600 ∅.

Definition init_args : DeployerImpl.InitArgs :=
  {| DeployerImpl.a_deployer_kwargs := {["name" := PStr "my-flow"]};
     DeployerImpl.a_flow_file := "flow.py";
     DeployerImpl.a_show_output := true;
     DeployerImpl.a_profile := None;
     DeployerImpl.a_env := None;
     DeployerImpl.a_cwd := None;
     DeployerImpl.a_file_read_timeout := 3600;
     DeployerImpl.a_kwargs := ∅ |}.

Definition bound (type : string) : DeployerImpl.t :=
  {| DeployerImpl.TYPE := Some type;
     DeployerImpl.deployer_kwargs := {["name" := PStr "my-flow"]};
     DeployerImpl.flow_file := "flow.py";
     DeployerImpl.show_output := true;
     DeployerImpl.profile := None;
     DeployerImpl.env := None;
     DeployerImpl.cwd := None;
     DeployerImpl.file_read_timeout := 3600;
     DeployerImpl.env_vars := ∅;
     DeployerImpl.top_level_kwargs := ∅;
     DeployerImpl.api := api "flow.py";
     DeployerImpl.name := None;
     DeployerImpl.flow_name := None;
     DeployerImpl.metadata := None;
     DeployerImpl.additional_info := None |}.

(** The deployer after a successful [create]. *)
Definition created (type : string) : DeployerImpl.t :=
  payload_fields
    ({["name" := PStr "my-flow"; "flow_name" := PStr "MyFlow";
       "metadata" := PStr "service"]})
    (bound type).

Definition flow (type : string) : DeployedFlow.t :=
  {| DeployedFlow.deployer := created type;
     DeployedFlow.name := PStr "my-flow";
     DeployedFlow.flow_name := PStr "MyFlow";
     DeployedFlow.metadata := PStr "service" |}.

Definition triggered (type pathspec : string) : TriggeredRun.t :=
  {| TriggeredRun.deployer := created type;
     TriggeredRun.metadata_for_flow := PStr "service";
     TriggeredRun.pathspec := PStr pathspec;
     TriggeredRun.name := PNone |}.

(** [{"name": "my-flow", "flow_name": "MyFlow", "metadata": "service"}] *)
Definition create_payload : string :=
  "{" ++ jstr "name" ++ ": " ++ jstr "my-flow" ++ ", "
      ++ jstr "flow_name" ++ ": " ++ jstr "MyFlow" ++ ", "
      ++ jstr "metadata" ++ ": " ++ jstr "service" ++ "}".

(** [{"metadata": "service", "name": "my-run"}]: a trigger payload
    without [pathspec]. *)
Definition payload_without_pathspec : string :=
  "{" ++ jstr "metadata" ++ ": " ++ jstr "service" ++ ", "
      ++ jstr "name" ++ ": " ++ jstr "my-run" ++ "}".

(** The two providers of the registry, and two whose types give one
    method name. *)
Definition provider (E : Env) (type : string) : ProviderClass :=
  {| TYPE := Some type;
     DEPLOYED_FLOW_TYPE :=
       Some {| cls_from_deployment := fun _ _ _ => Raise NotImplementedError |};
     construct := DeployerImpl.__init__ E (Some type) |}.

Definition quiet : Env :=
  env (exited 0) (Return create_payload) (fun _ => None) (Return None).

Definition registry : list ProviderClass :=
  [provider quiet "argo-workflows"; provider quiet "step-functions"].

End Sample.

(** * Vocabulary of the further statements *)

(** The provider registered last under a method name. *)
Fixpoint last_named (name : string) (providers : list ProviderClass)
  : option ProviderClass :=
  match providers with
  | [] => None
  | provider :: rest =>
      match last_named name rest with
      | Some later => Some later
      | None =>
          match TYPE provider with
          | Some type =>
              if String.eqb (replace "-" "_" type) name then Some provider
              else None
          | None => None
          end
      end
  end.

(** A [-] in a string. *)
Fixpoint has_dash (s : string) : bool :=
  match s with
  | EmptyString => false
  | String c s' => Ascii.eqb c "-" || has_dash s'
  end.


Module Sample2.

(** [Sample.quiet] with a [Run] object that is there from [available]
    on, and with an environment of the process. *)
Definition with_run (available : Z) : Env :=
  {| json_loads := json_loads Sample.quiet;
     sys_executable := sys_executable Sample.quiet;
     os_environ := {["HOME" := "/root"; "METAFLOW_USER" := "root"]};
     from_cli := from_cli Sample.quiet;
     attribute_file := attribute_file Sample.quiet;
     run_command := run_command Sample.quiet;
     handle_timeout := handle_timeout Sample.quiet;
     DEFAULT_FROM_DEPLOYMENT_IMPL := DEFAULT_FROM_DEPLOYMENT_IMPL Sample.quiet;
     get_workflow_status := get_workflow_status Sample.quiet;
     Run := fun now _ => if now <? available then None else Some (PStr "run");
     get_status_considering_run_object :=
       get_status_considering_run_object Sample.quiet;
     get_existing_deployment := get_existing_deployment Sample.quiet |}.

(** A provider whose flows are rebuilt by [rebuild]. *)
Definition rebuilding (type : string)
    (rebuild : string -> option string -> string -> result DeployedFlow.t)
  : ProviderClass :=
  {| TYPE := Some type;
     DEPLOYED_FLOW_TYPE := Some {| cls_from_deployment := rebuild |};
     construct := DeployerImpl.__init__ Sample.quiet (Some type) |}.

(** A workflow template with the annotations of a flow of a project. *)
Definition template : gmap string pyval :=
  {["metadata" :=
      PDict {["annotations" :=
                PDict {["metaflow/flow_name" := PStr "MyFlow";
                        "metaflow/owner" := PStr "alice";
                        "metaflow/parameters" := PStr "{}";
                        "metaflow/branch_name" := PStr "prod.v2";
                        "metaflow/project_name" := PStr "demo"]}]}]}.

End Sample2.

(** * Properties *)

(** ** Branch annotations ([from_deployment]) *)

Lemma startswith_app (p r : string) : startswith p (p ++ r) = true.
Proof.
  unfold startswith. induction p as [|c p IH]; simpl.
  - by destruct r.
  - rewrite IH. by destruct (ascii_dec c c).
Qed.

Lemma slice_from_app (p r : string) : slice_from (String.length p) (p ++ r) = r.
Proof. induction p as [|c p IH]; simpl; [done | exact IH]. Qed.

(** C8. A branch annotation ["prod." ++ r] gives [production=True] and
    [branch=r]; ["test." ++ r] gives [branch=r] and no [production];
    the bare ["prod"] gives [production=True] and no [branch]; any other
    name gives neither. *)
Theorem project_kwargs_of_branch_name :
  (forall r : string,
     ArgoWorkflowsDeployedFlow.project_kwargs (PStr ("prod." ++ r))
     = Return (<["branch" := PStr r]> (<["production" := PBool true]> ∅)))
  /\ (forall r : string,
        ArgoWorkflowsDeployedFlow.project_kwargs (PStr ("test." ++ r))
        = Return (<["branch" := PStr r]> ∅))
  /\ ArgoWorkflowsDeployedFlow.project_kwargs (PStr "prod")
     = Return (<["production" := PBool true]> ∅)
  /\ (forall b : string,
        startswith "prod." b = false -> startswith "test." b = false ->
        b <> "prod" ->
        ArgoWorkflowsDeployedFlow.project_kwargs (PStr b) = Return ∅).
Proof.
  split; [|split; [|split]].
  - intros r. unfold ArgoWorkflowsDeployedFlow.project_kwargs.
    rewrite (startswith_app "prod." r).
    by rewrite (slice_from_app "prod." r).
  - intros r. unfold ArgoWorkflowsDeployedFlow.project_kwargs.
    replace (startswith "prod." ("test." ++ r)) with false by reflexivity.
    rewrite (startswith_app "test." r).
    by rewrite (slice_from_app "test." r).
  - reflexivity.
  - intros b Hprod Htest Hne. unfold ArgoWorkflowsDeployedFlow.project_kwargs.
    rewrite Hprod, Htest.
    destruct (String.eqb_spec b "prod") as [->|_]; [done | reflexivity].
Qed.

(** The options go to the [Deployer] the handle is rebuilt from, and
    the [argo_workflows] call on it has no keyword; without a branch
    annotation there is no option, and the call names the identifier. *)
Lemma from_deployment_deployer_kwargs (fake_flow_file username : string)
    (identifier branch_name : string) (options : gmap string pyval) :
  ArgoWorkflowsDeployedFlow.project_kwargs (PStr branch_name) = Return options ->
  ArgoWorkflowsDeployedFlow.from_deployment_deployer fake_flow_file username
    identifier (PStr branch_name)
  = Return (Deployer.__init__ fake_flow_file true None
              (Some {["METAFLOW_USER" := username]}) None 3600 options,
            ∅).
Proof.
  intros H. unfold ArgoWorkflowsDeployedFlow.from_deployment_deployer.
  by rewrite H.
Qed.

Lemma project_kwargs_of_branch_name_witness :
  ArgoWorkflowsDeployedFlow.project_kwargs (PStr "user.alice") = Return ∅.
Proof.
  apply (proj2 (proj2 (proj2 project_kwargs_of_branch_name))).
  - reflexivity.
  - reflexivity.
  - discriminate.
Defined.

(** ** The production token *)

(** C10. For a handle whose deployer has its name, when the
    existing-deployment lookup keyed by that name gives a result whose
    unpacking into a pair raises [TypeError], [production_token] is
    [None] and no exception leaves the property. *)
Theorem production_token_lookup_failed (E : Env) (self : DeployedFlow.t)
    (name : pyval) (r : option (list pyval)) :
  DeployerImpl.name (DeployedFlow.deployer self) = Some name ->
  get_existing_deployment E name = Return r ->
  ArgoWorkflowsDeployedFlow.unpack_lookup r = Raise TypeError ->
  ArgoWorkflowsDeployedFlow.production_token E self = Return PNone.
Proof.
  intros Hname Hlookup Hunpack.
  unfold ArgoWorkflowsDeployedFlow.production_token.
  rewrite Hname. simpl. rewrite Hlookup. simpl. by rewrite Hunpack.
Qed.

Lemma production_token_lookup_failed_witness :
  ArgoWorkflowsDeployedFlow.production_token
    (Sample.env (Sample.exited 0) (Return Sample.create_payload)
       (fun _ => None) (Return None))
    (Sample.flow "argo-workflows")
  = Return PNone.
Proof.
  apply (production_token_lookup_failed _ _ (PStr "my-flow") None);
    reflexivity.
Defined.

(** A lookup that finds the deployment gives its token, and a tuple of
    another length is a [ValueError] the property lets through. *)
Lemma production_token_found (E : Env) (self : DeployedFlow.t)
    (name workflow token : pyval) :
  DeployerImpl.name (DeployedFlow.deployer self) = Some name ->
  get_existing_deployment E name = Return (Some [workflow; token]) ->
  ArgoWorkflowsDeployedFlow.production_token E self = Return token.
Proof.
  intros Hname Hlookup. unfold ArgoWorkflowsDeployedFlow.production_token.
  rewrite Hname. simpl. by rewrite Hlookup.
Qed.

Lemma production_token_wrong_length (E : Env) (self : DeployedFlow.t)
    (name a b c : pyval) (rest : list pyval) :
  DeployerImpl.name (DeployedFlow.deployer self) = Some name ->
  get_existing_deployment E name = Return (Some (a :: b :: c :: rest)) ->
  ArgoWorkflowsDeployedFlow.production_token E self
  = Raise (ValueError "too many values to unpack").
Proof.
  intros Hname Hlookup. unfold ArgoWorkflowsDeployedFlow.production_token.
  rewrite Hname. simpl. by rewrite Hlookup.
Qed.

(** ** Unset and unknown backend types *)

Lemma get_lower_level_group_unset (api : MetaflowAPI)
    (top_level_kwargs deployer_kwargs : gmap string pyval) :
  exists msg,
    get_lower_level_group api top_level_kwargs None deployer_kwargs
    = Raise (ValueError msg).
Proof. eexists. reflexivity. Qed.

Lemma DeployerImpl_init_unset (E : Env) (a : DeployerImpl.InitArgs) :
  exists msg, DeployerImpl.__init__ E None a = Raise (ValueError msg).
Proof. eexists. reflexivity. Qed.

(** With an unset type no operation reaches the spawn: building the
    command raises, and [_create] leaves the deployer as it was. *)
Lemma lifecycle_unset (E : Env) (verb : string) (self : TriggeredRun.t)
    (kwargs : gmap string pyval) :
  DeployerImpl.TYPE (TriggeredRun.deployer self) = None ->
  is_raise (ArgoWorkflowsTriggeredRun.lifecycle E verb self kwargs).
Proof.
  intros H. unfold ArgoWorkflowsTriggeredRun.lifecycle.
  destruct (py_split _) as [pieces|]; [simpl | done].
  destruct (unpack2 pieces) as [[? run_id]|]; [simpl | done].
  by rewrite H.
Qed.

Lemma trigger_unset (E : Env) (self : DeployedFlow.t)
    (kwargs : gmap string pyval) :
  DeployerImpl.TYPE (DeployedFlow.deployer self) = None ->
  exists msg,
    ArgoWorkflowsDeployedFlow.trigger E self kwargs = Raise (ValueError msg).
Proof.
  intros H. unfold ArgoWorkflowsDeployedFlow.trigger. rewrite H.
  eexists. reflexivity.
Qed.

Lemma _create_unset (E : Env)
    (create_class : DeployerImpl.t -> result DeployedFlow.t)
    (kwargs : gmap string pyval) (self : DeployerImpl.t) :
  DeployerImpl.TYPE self = None ->
  exists msg,
    _create E create_class kwargs self = (Raise (ValueError msg), self).
Proof.
  intros H. unfold _create, mbind, mself, mlift. rewrite H.
  eexists. reflexivity.
Qed.

(** The static method of the class body refuses an implementation it
    does not know. *)
Lemma DeployedFlow_from_deployment_unknown
    (argo : string -> option string -> result DeployedFlow.t)
    (identifier : string) (metadata : option string) (impl : string) :
  impl <> "argo-workflows" ->
  DeployedFlow.from_deployment argo identifier metadata impl
  = Raise NotImplementedError.
Proof.
  intros H. unfold DeployedFlow.from_deployment.
  by destruct (String.eqb_spec impl "argo-workflows").
Qed.

(** The injected [from_deployment] gives [None] for every key that is
    not in the table. *)
Lemma injected_from_deployment_unknown (allowed : gmap string ProviderClass)
    (identifier : string) (metadata : option string) (impl : string) :
  allowed !! impl = None ->
  DeployedFlowMeta.f allowed identifier metadata impl = Return None.
Proof. intros H. unfold DeployedFlowMeta.f. by rewrite H. Qed.

(** C6. With the registry of the two backends, [from_deployment] on the
    implementation key ["kubeflow"] returns [None]: no exception, and no
    handle. *)
Theorem from_deployment_unknown_impl_returns_none :
  (let! from_deployment := DeployedFlowMeta.__new__ Sample.registry in
   from_deployment "my-flow" None "kubeflow")
  = Return None.
Proof. vm_compute. reflexivity. Qed.

(** ** Fire-and-forget verbs *)

Lemma returncode_eq_0_sync_wait (c : Runner.CommandManager) :
  Runner.returncode_eq_0 (Runner.sync_wait c) = true
  <-> Runner.exit_status c = 0.
Proof.
  unfold Runner.returncode_eq_0, Runner.sync_wait, Runner.returncode. simpl.
  apply Z.eqb_eq.
Qed.

Lemma returncode_eq_0_unwaited (c : Runner.CommandManager) :
  Runner.returncode_eq_0 c = true
  <-> Runner.reaped c = true /\ Runner.exit_status c = 0.
Proof.
  unfold Runner.returncode_eq_0, Runner.returncode.
  destruct (Runner.reaped c).
  - rewrite Z.eqb_eq. tauto.
  - split; [discriminate | intros [? _]; discriminate].
Qed.

(** The three verbs of the Argo run and [delete] of the Argo flow wait
    for the child, and answer [True] exactly when it exited with zero. *)
Lemma argo_lifecycle_exit_code (E : Env) (verb : string)
    (self : TriggeredRun.t) (kwargs : gmap string pyval) (b : bool) :
  ArgoWorkflowsTriggeredRun.lifecycle E verb self kwargs = Return b ->
  exists command,
    b = true <->
    Runner.exit_status (spawn E command (TriggeredRun.deployer self)) = 0.
Proof.
  unfold ArgoWorkflowsTriggeredRun.lifecycle. intros H.
  destruct (py_split _) as [pieces|]; [simpl in H | discriminate].
  destruct (unpack2 pieces) as [[? run_id]|]; [simpl in H | discriminate].
  destruct (get_lower_level_group _ _ _ _) as [group|]; [simpl in H | discriminate].
  destruct (call_kw _ _) as [kw|]; [simpl in H | discriminate].
  destruct (group verb kw) as [command|]; [simpl in H | discriminate].
  exists command. injection H as <-. apply returncode_eq_0_sync_wait.
Qed.

Lemma argo_delete_exit_code (E : Env) (self : DeployedFlow.t)
    (kwargs : gmap string pyval) (b : bool) :
  ArgoWorkflowsDeployedFlow.delete E self kwargs = Return b ->
  exists command,
    b = true <->
    Runner.exit_status (spawn E command (DeployedFlow.deployer self)) = 0.
Proof.
  unfold ArgoWorkflowsDeployedFlow.delete. intros H.
  destruct (get_lower_level_group _ _ _ _) as [group|]; [simpl in H | discriminate].
  destruct (group "delete" kwargs) as [command|]; [simpl in H | discriminate].
  exists command. injection H as <-. apply returncode_eq_0_sync_wait.
Qed.

(** The step-functions verbs read the return code without waiting:
    [True] needs the child to have been reaped by the spawn already. *)
Lemma sfn_terminate_exit_code (E : Env) (instance : TriggeredRun.t)
    (kwargs : gmap string pyval) (b : bool) :
  StepFunctions.terminate E instance kwargs = Return b ->
  exists command,
    let child := spawn E command (TriggeredRun.deployer instance) in
    b = true <-> Runner.reaped child = true /\ Runner.exit_status child = 0.
Proof.
  unfold StepFunctions.terminate. intros H.
  destruct (py_split _) as [pieces|]; [simpl in H | discriminate].
  destruct (unpack2 pieces) as [[? run_id]|]; [simpl in H | discriminate].
  destruct (get_lower_level_group _ _ _ _) as [group|]; [simpl in H | discriminate].
  destruct (call_kw _ _) as [kw|]; [simpl in H | discriminate].
  destruct (group "terminate" kw) as [command|]; [simpl in H | discriminate].
  exists command. injection H as <-. apply returncode_eq_0_unwaited.
Qed.

(** C2. A child that exits with code zero and has not been reaped when
    the spawn returns: [terminate], [delete] and [list_runs] of
    step-functions answer [False], where [terminate] and [delete] of
    Argo, which wait, answer [True]. *)
Theorem sfn_verbs_do_not_wait :
  let E := Sample.env (Sample.still_running 0) (Return Sample.create_payload)
             (fun _ => None) (Return None) in
  StepFunctions.terminate E
    (Sample.triggered "step-functions" "MyFlow/sfn-abc123") ∅ = Return false
  /\ StepFunctions.delete E (Sample.flow "step-functions") ∅ = Return false
  /\ StepFunctions.list_runs E (Sample.flow "step-functions") ∅ = Return false
  /\ ArgoWorkflowsTriggeredRun.terminate E
       (Sample.triggered "argo-workflows" "MyFlow/argo-abc123") ∅ = Return true
  /\ ArgoWorkflowsDeployedFlow.delete E (Sample.flow "argo-workflows") ∅
     = Return true.
Proof. vm_compute. repeat split. Qed.

(** ** The run name of the status query *)

Lemma split_no_slash (s : string) :
  no_slash s = true -> split "/" s = [s].
Proof.
  induction s as [|c s IH]; [done |].
  intros [Hc Hs]%andb_prop. apply negb_true_iff in Hc.
  change (split "/" (String c s))
    with (if Ascii.eqb c "/" then EmptyString :: split "/" s
          else match split "/" s with
               | piece :: pieces => String c piece :: pieces
               | [] => [String c EmptyString]
               end).
  rewrite Hc. by rewrite (IH Hs).
Qed.

Lemma split_pathspec (flow_name run_id : string) :
  no_slash flow_name = true -> no_slash run_id = true ->
  split "/" (flow_name ++ "/" ++ run_id) = [flow_name; run_id].
Proof.
  intros Hflow Hrun. induction flow_name as [|c s IH].
  - change (split "/" ("" ++ "/" ++ run_id))
      with (EmptyString :: split "/" run_id).
    by rewrite (split_no_slash run_id Hrun).
  - simpl in Hflow. apply andb_prop in Hflow as [Hc Hs].
    apply negb_true_iff in Hc.
    change (split "/" (String c s ++ "/" ++ run_id))
      with (if Ascii.eqb c "/" then EmptyString :: split "/" (s ++ "/" ++ run_id)
            else match split "/" (s ++ "/" ++ run_id) with
                 | piece :: pieces => String c piece :: pieces
                 | [] => [String c EmptyString]
                 end).
    rewrite Hc. by rewrite (IH Hs).
Qed.

Lemma status_query_pathspec (self : TriggeredRun.t)
    (flow_name run_id : string) :
  TriggeredRun.pathspec self = PStr (flow_name ++ "/" ++ run_id) ->
  no_slash flow_name = true -> no_slash run_id = true ->
  ArgoWorkflowsTriggeredRun.status_query self
  = Return (flow_name, slice_from 5 run_id).
Proof.
  intros Hpath Hflow Hrun. unfold ArgoWorkflowsTriggeredRun.status_query.
  rewrite Hpath. simpl. by rewrite (split_pathspec _ _ Hflow Hrun).
Qed.

(** C7, as the source has it. For a run whose pathspec is
    [flow_name/run_id], the status query asks the orchestrator about
    [flow_name] and [run_id] without its first five characters: the
    offset is the constant 5, the length of ["argo-"], so that a run id
    ["argo-" ++ r] is queried as [r]. *)
Theorem status_queries_run_id_from_5 (E : Env) (now : Z)
    (self : TriggeredRun.t) (flow_name run_id : string) :
  TriggeredRun.pathspec self = PStr (flow_name ++ "/" ++ run_id) ->
  no_slash flow_name = true -> no_slash run_id = true ->
  ArgoWorkflowsTriggeredRun.status_query self
  = Return (flow_name, slice_from 5 run_id)
  /\ ArgoWorkflowsTriggeredRun.status E now self
     = Return
         (option_map
            (fun status =>
               get_status_considering_run_object E status
                 (TriggeredRun.run E now self))
            (get_workflow_status E now flow_name (slice_from 5 run_id)))
  /\ (forall r, run_id = "argo-" ++ r -> slice_from 5 run_id = r).
Proof.
  intros Hpath Hflow Hrun.
  pose proof (status_query_pathspec self flow_name run_id Hpath Hflow Hrun)
    as Hquery.
  split; [exact Hquery | split].
  - unfold ArgoWorkflowsTriggeredRun.status. rewrite Hquery. unfold bind.
    by destruct (get_workflow_status E now flow_name (slice_from 5 run_id)).
  - intros r ->. reflexivity.
Qed.

Lemma status_queries_run_id_from_5_witness :
  ArgoWorkflowsTriggeredRun.status_query
    (Sample.triggered "argo-workflows" "MyFlow/argo-abc123")
  = Return ("MyFlow", "abc123").
Proof.
  apply (status_queries_run_id_from_5 Sample.quiet 0
           (Sample.triggered "argo-workflows" "MyFlow/argo-abc123")
           "MyFlow" "argo-abc123"); reflexivity.
Defined.

(** C7, as the claim has it, fails: for the pathspec
    ["MyFlow/sfn-abc123"] the run name queried is ["bc123"], not
    ["abc123"]. *)
Lemma status_query_sfn_pathspec :
  ArgoWorkflowsTriggeredRun.status_query
    (Sample.triggered "step-functions" "MyFlow/sfn-abc123")
  = Return ("MyFlow", "bc123")
  /\ ArgoWorkflowsTriggeredRun.status_query
       (Sample.triggered "step-functions" "MyFlow/sfn-abc123")
     <> Return ("MyFlow", "abc123").
Proof. split; [reflexivity | discriminate]. Qed.

(** ** Result payloads: [create] and [trigger] *)

(** [_create] once the command is built and the payload read. *)
Lemma _create_after_read (E : Env)
    (create_class : DeployerImpl.t -> result DeployedFlow.t)
    (kwargs : gmap string pyval) (self : DeployerImpl.t)
    (command : list string) (content : string)
    (command_obj : Runner.CommandManager) :
  create_command E kwargs self = Return command ->
  read_payload E command self = (Return content, command_obj) ->
  _create E create_class kwargs self
  = match json_loads E content with
    | None => (Raise JSONDecodeError, self)
    | Some (PDict m) =>
        if Runner.returncode_eq_0 command_obj
        then (create_class (payload_fields m self), payload_fields m self)
        else (Raise (Exception "Error deploying %s to %s"
                       [PStr (DeployerImpl.flow_file self);
                        from_option PStr PNone (DeployerImpl.TYPE self)]),
              payload_fields m self)
    | Some _ => (Raise AttributeError, self)
    end.
Proof.
  intros Hcommand Hread.
  unfold create_command in Hcommand. unfold read_payload, spawn in Hread.
  unfold _create, mbind, mself, mlift. rewrite Hcommand, Hread.
  destruct (json_loads E content) as [[| | | | |m]|]; try reflexivity.
  unfold py_get, massign, mraise, payload_fields.
  by destruct (Runner.returncode_eq_0 command_obj).
Qed.

(** A command that cannot be built, or a read that fails, leaves the
    deployer as it was. *)
Lemma _create_no_command (E : Env)
    (create_class : DeployerImpl.t -> result DeployedFlow.t)
    (kwargs : gmap string pyval) (self : DeployerImpl.t) (e : exn) :
  create_command E kwargs self = Raise e ->
  _create E create_class kwargs self = (Raise e, self).
Proof.
  intros Hcommand. unfold create_command in Hcommand.
  unfold _create, mbind, mself, mlift. by rewrite Hcommand.
Qed.

Lemma _create_read_failed (E : Env)
    (create_class : DeployerImpl.t -> result DeployedFlow.t)
    (kwargs : gmap string pyval) (self : DeployerImpl.t)
    (command : list string) (e : exn) (command_obj : Runner.CommandManager) :
  create_command E kwargs self = Return command ->
  read_payload E command self = (Raise e, command_obj) ->
  _create E create_class kwargs self = (Raise e, self).
Proof.
  intros Hcommand Hread.
  unfold create_command in Hcommand. unfold read_payload, spawn in Hread.
  unfold _create, mbind, mself, mlift. by rewrite Hcommand, Hread.
Qed.

Lemma TriggeredRun_init_cases (E : Env) (deployer : DeployerImpl.t)
    (content : string) :
  TriggeredRun.__init__ E deployer content
  = match json_loads E content with
    | None => Raise JSONDecodeError
    | Some (PDict m) =>
        Return {| TriggeredRun.deployer := deployer;
                  TriggeredRun.metadata_for_flow := default PNone (m !! "metadata");
                  TriggeredRun.pathspec := default PNone (m !! "pathspec");
                  TriggeredRun.name := default PNone (m !! "name") |}
    | Some _ => Raise AttributeError
    end.
Proof.
  unfold TriggeredRun.__init__.
  by destruct (json_loads E content) as [[| | | | |m]|].
Qed.

(** C1, as the source has it. When the return code read after the
    payload is not zero, or the payload is not a JSON object, [_create]
    raises and returns no handle. A payload that is not a JSON object
    leaves the deployer unchanged; a JSON object has by then been stored
    in [name], [flow_name], [metadata] and [additional_info], and stays
    there. *)
Theorem create_failure (E : Env)
    (create_class : DeployerImpl.t -> result DeployedFlow.t)
    (kwargs : gmap string pyval) (self : DeployerImpl.t)
    (command : list string) (content : string)
    (command_obj : Runner.CommandManager) :
  create_command E kwargs self = Return command ->
  read_payload E command self = (Return content, command_obj) ->
  Runner.returncode command_obj <> Some 0 \/ ~ is_object E content ->
  is_raise (_create E create_class kwargs self).1
  /\ (~ is_object E content ->
      (_create E create_class kwargs self).2 = self)
  /\ (forall m, json_loads E content = Some (PDict m) ->
      (_create E create_class kwargs self).2 = payload_fields m self).
Proof.
  intros Hcommand Hread Hfail.
  rewrite (_create_after_read E create_class kwargs self command content
             command_obj Hcommand Hread).
  destruct (json_loads E content) as [v|] eqn:Hjson.
  - destruct v as [| | | | |m];
      try (split; [exact I | split; [reflexivity | intros ? [=]]]).
    assert (Runner.returncode_eq_0 command_obj = false) as ->.
    { destruct Hfail as [Hcode | Hobj].
      - unfold Runner.returncode_eq_0.
        destruct (Runner.returncode command_obj) as [z|]; [|done].
        apply Z.eqb_neq. congruence.
      - exfalso. apply Hobj. by exists m. }
    split; [exact I | split].
    + intros Hobj. exfalso. apply Hobj. by exists m.
    + by intros ? [= <-].
  - split; [exact I | split; [reflexivity | intros ? [=]]].
Qed.

Lemma create_failure_witness :
  let E := Sample.env (Sample.exited 1) (Return Sample.create_payload)
             (fun _ => None) (Return None) in
  is_raise (_create E DeployedFlow.__init__ ∅ (Sample.bound "step-functions")).1.
Proof.
  intros E.
  apply (create_failure E DeployedFlow.__init__ ∅ (Sample.bound "step-functions")
           ["flow.py"; "step-functions"; "create"] Sample.create_payload
           (Sample.exited 1)).
  - reflexivity.
  - reflexivity.
  - left. vm_compute. discriminate.
Defined.

(** C1, as the claim has it, fails: the child exits with code 1 after
    writing its payload; [_create] raises, and the deployer, whose
    [name] was unassigned, now has the payload's name. *)
Lemma create_failure_keeps_payload :
  let E := Sample.env (Sample.exited 1) (Return Sample.create_payload)
             (fun _ => None) (Return None) in
  let self := Sample.bound "step-functions" in
  let after := (_create E DeployedFlow.__init__ ∅ self).2 in
  is_raise (_create E DeployedFlow.__init__ ∅ self).1
  /\ DeployerImpl.name self = None
  /\ DeployerImpl.name after = Some (PStr "my-flow")
  /\ DeployerImpl.flow_name after = Some (PStr "MyFlow")
  /\ DeployerImpl.metadata after = Some (PStr "service")
  /\ DeployerImpl.additional_info after = Some (PDict ∅).
Proof. vm_compute. repeat split. Qed.

(** C4, as the source has it. A payload that is a JSON object gives
    every attribute its entry, and [None] (for [additional_info] the
    empty dictionary) where the entry is absent, without an exception
    from the reading. A payload that does not decode raises
    [JSONDecodeError], and one that decodes to something else than an
    object raises [AttributeError], in [TriggeredRun.__init__] and in
    [_create] alike. *)
Theorem payload_absent_fields_and_malformed (E : Env)
    (deployer : DeployerImpl.t) (content : string) :
  (forall m, json_loads E content = Some (PDict m) ->
     TriggeredRun.__init__ E deployer content
     = Return {| TriggeredRun.deployer := deployer;
                 TriggeredRun.metadata_for_flow := default PNone (m !! "metadata");
                 TriggeredRun.pathspec := default PNone (m !! "pathspec");
                 TriggeredRun.name := default PNone (m !! "name") |})
  /\ (json_loads E content = None ->
      TriggeredRun.__init__ E deployer content = Raise JSONDecodeError)
  /\ (forall v, json_loads E content = Some v -> (forall m, v <> PDict m) ->
      TriggeredRun.__init__ E deployer content = Raise AttributeError)
  /\ (forall create_class kwargs command command_obj,
        create_command E kwargs deployer = Return command ->
        read_payload E command deployer = (Return content, command_obj) ->
        (forall m, json_loads E content = Some (PDict m) ->
           (_create E create_class kwargs deployer).2
           = payload_fields m deployer)
        /\ (json_loads E content = None ->
            _create E create_class kwargs deployer
            = (Raise JSONDecodeError, deployer))
        /\ (forall v, json_loads E content = Some v ->
            (forall m, v <> PDict m) ->
            _create E create_class kwargs deployer
            = (Raise AttributeError, deployer))).
Proof.
  split; [|split; [|split]].
  - intros m Hjson. by rewrite TriggeredRun_init_cases, Hjson.
  - intros Hjson. by rewrite TriggeredRun_init_cases, Hjson.
  - intros v Hjson Hv. rewrite TriggeredRun_init_cases, Hjson.
    destruct v as [| | | | |m]; try reflexivity. by destruct (Hv m).
  - intros create_class kwargs command command_obj Hcommand Hread.
    rewrite (_create_after_read E create_class kwargs deployer command
               content command_obj Hcommand Hread).
    split; [|split].
    + intros m ->. by destruct (Runner.returncode_eq_0 command_obj).
    + by intros ->.
    + intros v -> Hv.
      destruct v as [| | | | |m]; try reflexivity. by destruct (Hv m).
Qed.

Lemma payload_absent_fields_and_malformed_witness :
  TriggeredRun.__init__ Sample.quiet (Sample.created "argo-workflows") "[]"
  = Raise AttributeError.
Proof.
  apply (proj1 (proj2 (proj2
           (payload_absent_fields_and_malformed Sample.quiet
              (Sample.created "argo-workflows") "[]"))) (PList [])).
  - reflexivity.
  - discriminate.
Defined.

(** C4, as the claim has it, fails: a payload cut off after its first
    key makes [TriggeredRun.__init__] and [_create] raise. *)
Lemma malformed_payload_raises :
  let cut := "{" ++ Sample.jstr "name" ++ ": " in
  let E := Sample.env (Sample.exited 0) (Return cut) (fun _ => None)
             (Return None) in
  TriggeredRun.__init__ E (Sample.created "argo-workflows") cut
  = Raise JSONDecodeError
  /\ (_create E DeployedFlow.__init__ ∅ (Sample.bound "step-functions")).1
     = Raise JSONDecodeError.
Proof. vm_compute. split; reflexivity. Qed.

(** ** The pathspec of a triggered run *)

(** C3, as the source has it. The run a successful [trigger] returns
    has the pathspec the payload object carries, and [None] when the
    object has no ["pathspec"] entry. *)
Theorem trigger_pathspec_from_payload (E : Env) (self : DeployedFlow.t)
    (kwargs : gmap string pyval) (run : TriggeredRun.t) :
  ArgoWorkflowsDeployedFlow.trigger E self kwargs = Return run ->
  exists command content m,
    (read_payload E command (DeployedFlow.deployer self)).1 = Return content
    /\ json_loads E content = Some (PDict m)
    /\ TriggeredRun.pathspec run = default PNone (m !! "pathspec").
Proof.
  unfold ArgoWorkflowsDeployedFlow.trigger. intros H.
  destruct (get_lower_level_group _ _ _ _) as [group|]; [simpl in H | discriminate].
  destruct (call_kw _ _) as [kw|]; [simpl in H | discriminate].
  destruct (group "trigger" kw) as [command|]; [simpl in H | discriminate].
  destruct (handle_timeout E _ _ _) as [[content|] command_obj] eqn:Hread;
    [simpl in H | discriminate].
  destruct (Runner.returncode_eq_0 _).
  - rewrite TriggeredRun_init_cases in H.
    destruct (json_loads E content) as [[| | | | |m]|] eqn:Hjson;
      try discriminate.
    injection H as <-. exists command, content, m.
    unfold read_payload, spawn. rewrite Hread. done.
  - by destruct (DeployedFlow.getattr _).
Qed.

Lemma trigger_pathspec_from_payload_witness :
  let E := Sample.env (Sample.exited 0)
             (Return ("{" ++ Sample.jstr "pathspec" ++ ": "
                          ++ Sample.jstr "MyFlow/argo-abc123" ++ "}"))
             (fun _ => None) (Return None) in
  exists command content m,
    (read_payload E command (Sample.created "argo-workflows")).1
    = Return content
    /\ json_loads E content = Some (PDict m)
    /\ PStr "MyFlow/argo-abc123" = default PNone (m !! "pathspec").
Proof.
  intros E.
  apply (trigger_pathspec_from_payload E (Sample.flow "argo-workflows") ∅
           {| TriggeredRun.deployer := Sample.created "argo-workflows";
              TriggeredRun.metadata_for_flow := PNone;
              TriggeredRun.pathspec := PStr "MyFlow/argo-abc123";
              TriggeredRun.name := PNone |}).
  reflexivity.
Defined.

(** C3, as the claim has it, fails: the child exits with code zero and
    a payload without ["pathspec"]; [trigger] returns a run whose
    pathspec is [None]. *)
Lemma trigger_null_pathspec :
  let E := Sample.env (Sample.exited 0)
             (Return Sample.payload_without_pathspec) (fun _ => None)
             (Return None) in
  ArgoWorkflowsDeployedFlow.trigger E (Sample.flow "argo-workflows") ∅
  = Return {| TriggeredRun.deployer := Sample.created "argo-workflows";
              TriggeredRun.metadata_for_flow := PStr "service";
              TriggeredRun.pathspec := PNone;
              TriggeredRun.name := PStr "my-run" |}.
Proof. vm_compute. reflexivity. Qed.

(** ** The methods injected in [Deployer] *)

Lemma inject_app (l1 l2 : list ProviderClass)
    (cls : gmap string DeployerMeta.injected) :
  DeployerMeta.inject (l1 ++ l2)%list cls
  = (let! cls' := DeployerMeta.inject l1 cls in DeployerMeta.inject l2 cls').
Proof.
  revert cls. induction l1 as [|p l1 IH]; intros cls; simpl; [done |].
  destruct (method_name p) as [m|]; simpl; [apply IH | done].
Qed.

Lemma inject_total (providers : list ProviderClass)
    (cls : gmap string DeployerMeta.injected) :
  (forall p, p ∈ providers -> is_Some (TYPE p)) ->
  exists cls', DeployerMeta.inject providers cls = Return cls'.
Proof.
  revert cls. induction providers as [|p ps IH]; intros cls Htype; simpl.
  - by exists cls.
  - destruct (Htype p) as [type Hp]; [by left |].
    unfold method_name. rewrite Hp. simpl.
    apply IH. intros p' Hin. apply Htype. by right.
Qed.

Lemma inject_other (providers : list ProviderClass)
    (cls cls' : gmap string DeployerMeta.injected) (m : string) :
  DeployerMeta.inject providers cls = Return cls' ->
  (forall p, p ∈ providers -> method_name p <> Return m) ->
  cls' !! m = cls !! m.
Proof.
  revert cls. induction providers as [|p ps IH]; intros cls; simpl.
  - by intros [= ->].
  - intros Hinject Hother.
    destruct (method_name p) as [m'|] eqn:Hp; [simpl in Hinject | done].
    rewrite (IH _ Hinject); [|intros p' Hin; apply Hother; by right].
    apply lookup_insert_ne. intros ->. by apply (Hother p); [left |].
Qed.

Lemma injected_method_call
    (deployer_class : DeployerImpl.InitArgs -> result DeployerImpl.t)
    (self : Deployer.t) (deployer_kwargs : gmap string pyval) :
  (forall k, k ∈ DeployerMeta.explicit_keywords ->
             Deployer.top_level_kwargs self !! k = None) ->
  DeployerMeta._injected_method deployer_class self deployer_kwargs
  = deployer_class
      {| DeployerImpl.a_deployer_kwargs := deployer_kwargs;
         DeployerImpl.a_flow_file := Deployer.flow_file self;
         DeployerImpl.a_show_output := Deployer.show_output self;
         DeployerImpl.a_profile := Deployer.profile self;
         DeployerImpl.a_env := Deployer.env self;
         DeployerImpl.a_cwd := Deployer.cwd self;
         DeployerImpl.a_file_read_timeout := Deployer.file_read_timeout self;
         DeployerImpl.a_kwargs := Deployer.top_level_kwargs self |}.
Proof.
  intros Hfree. unfold DeployerMeta._injected_method.
  destruct (existsb _ _) eqn:Hclash; [|done].
  apply existsb_exists in Hclash as (k & Hk & Hsome).
  apply bool_decide_eq_true in Hsome.
  rewrite Hfree in Hsome; [by destruct Hsome | by apply list_elem_of_In].
Qed.

(** C9, as the source has it. In a registry whose providers all have a
    [TYPE], a provider after which no provider with the same method name
    is registered gives [Deployer] a method named by its [TYPE] with
    every [-] replaced by [_]; when the top-level options of the
    [Deployer] do not use the name of one of the seven keywords of the
    call, calling the method is constructing the provider's class with
    the stored [flow_file], [show_output], [profile], [env], [cwd],
    [file_read_timeout] and top-level options, and the call's keyword
    arguments as [deployer_kwargs]. *)
Theorem deployer_gains_provider_method
    (before after : list ProviderClass) (provider : ProviderClass)
    (type : string) (dct : gmap string DeployerMeta.injected)
    (self : Deployer.t) (deployer_kwargs : gmap string pyval) :
  (forall p, p ∈ (before ++ provider :: after)%list -> is_Some (TYPE p)) ->
  TYPE provider = Some type ->
  (forall p, p ∈ after -> method_name p <> Return (replace "-" "_" type)) ->
  (forall k, k ∈ DeployerMeta.explicit_keywords ->
             Deployer.top_level_kwargs self !! k = None) ->
  exists cls f,
    DeployerMeta.__new__ (before ++ provider :: after)%list dct = Return cls
    /\ cls !! replace "-" "_" type = Some f
    /\ f self deployer_kwargs
       = construct provider
           {| DeployerImpl.a_deployer_kwargs := deployer_kwargs;
              DeployerImpl.a_flow_file := Deployer.flow_file self;
              DeployerImpl.a_show_output := Deployer.show_output self;
              DeployerImpl.a_profile := Deployer.profile self;
              DeployerImpl.a_env := Deployer.env self;
              DeployerImpl.a_cwd := Deployer.cwd self;
              DeployerImpl.a_file_read_timeout :=
                Deployer.file_read_timeout self;
              DeployerImpl.a_kwargs := Deployer.top_level_kwargs self |}.
Proof.
  intros Htypes Htype Hlast Hfree.
  destruct (inject_total (before ++ provider :: after)%list dct Htypes)
    as [cls Hcls].
  exists cls, (DeployerMeta._injected_method (construct provider)).
  split; [exact Hcls | split].
  - rewrite inject_app in Hcls.
    destruct (DeployerMeta.inject before dct) as [cls0|]; [|done].
    simpl in Hcls. unfold method_name at 1 in Hcls. rewrite Htype in Hcls.
    simpl in Hcls.
    etrans; [exact (inject_other _ _ _ _ Hcls Hlast) | apply lookup_insert_eq].
  - by apply injected_method_call.
Qed.

Lemma deployer_gains_provider_method_witness :
  exists cls f,
    DeployerMeta.__new__ Sample.registry ∅ = Return cls
    /\ cls !! "step_functions" = Some f
    /\ f Sample.deployer {["name" := PStr "my-flow"]}
       = StepFunctionsDeployer.__init__ Sample.quiet Sample.init_args.
Proof.
  apply (deployer_gains_provider_method
           [Sample.provider Sample.quiet "argo-workflows"] []
           (Sample.provider Sample.quiet "step-functions") "step-functions"
           ∅ Sample.deployer {["name" := PStr "my-flow"]}).
  - intros p Hp. apply list_elem_of_In in Hp.
    destruct Hp as [<-|[<-|[]]]; by eexists.
  - reflexivity.
  - intros p Hp. by apply elem_of_nil in Hp.
  - intros k Hk. apply lookup_empty.
Defined.

(** C9, as the claim has it, fails. Two providers whose types differ
    in [-] against [_] share the method name, and the method constructs
    the class registered last, not the first one. A registry with a
    provider without [TYPE] gives [Deployer] no method at all: the class
    statement raises. A [Deployer] with a top-level option called
    [deployer_kwargs] cannot call its methods: the keyword is given
    twice. *)
Lemma provider_method_not_gained :
  let first := Sample.provider Sample.quiet "argo-workflows" in
  let last := Sample.provider Sample.quiet "argo_workflows" in
  let call (providers : list ProviderClass) (self : Deployer.t)
      (method : string) :=
    let! cls := DeployerMeta.__new__ providers ∅ in
    match cls !! method with
    | Some f => f self ∅
    | None => Raise AttributeError
    end in
  (method_name first = Return "argo_workflows"
   /\ (let! bound := call [first; last] Sample.deployer "argo_workflows" in
       Return (DeployerImpl.TYPE bound))
      = Return (Some "argo_workflows")
   /\ (let! bound := construct first
                       {| DeployerImpl.a_deployer_kwargs := ∅;
                          DeployerImpl.a_flow_file := "flow.py";
                          DeployerImpl.a_show_output := true;
                          DeployerImpl.a_profile := None;
                          DeployerImpl.a_env := None;
                          DeployerImpl.a_cwd := None;
                          DeployerImpl.a_file_read_timeout := 3600;
                          DeployerImpl.a_kwargs := ∅ |} in
       Return (DeployerImpl.TYPE bound))
      = Return (Some "argo-workflows"))
  /\ DeployerMeta.__new__
       [first; {| TYPE := None; DEPLOYED_FLOW_TYPE := None;
                  construct := DeployerImpl.__init__ Sample.quiet None |}] ∅
     = Raise AttributeError
  /\ (let! bound :=
        call Sample.registry
          (Deployer.__init__ "flow.py" true None None None 3600
             {["deployer_kwargs" := PDict ∅]})
          "step_functions" in
      Return (DeployerImpl.TYPE bound))
     = Raise TypeError.
Proof. vm_compute. repeat split. Qed.

(** ** Waiting for completion *)

Lemma poll_succ (start check_interval : Z) (i : nat) :
  poll start check_interval (S i)
  = poll start check_interval i + check_interval.
Proof. unfold poll. lia. Qed.

(** Before the deadline poll nothing has timed out; at it, the wait
    has. *)
Lemma before_deadline (start check_interval timeout : Z) (i : nat) :
  0 < check_interval -> 0 <= timeout ->
  (i < deadline_poll check_interval timeout)%nat ->
  ArgoWorkflowsTriggeredRun.timed_out (Some timeout) start
    (poll start check_interval i) = false.
Proof.
  intros Hci Ht Hi. unfold ArgoWorkflowsTriggeredRun.timed_out, poll.
  unfold deadline_poll in Hi.
  pose proof (Z.div_pos timeout check_interval Ht Hci) as Hq.
  pose proof (Z.mul_div_le timeout check_interval Hci) as Hle.
  rewrite Z.gtb_ltb. apply Z.ltb_ge.
  assert (Z.of_nat i <= timeout / check_interval) as Hi' by lia.
  nia.
Qed.

Lemma at_deadline (start check_interval timeout : Z) :
  0 < check_interval -> 0 <= timeout ->
  ArgoWorkflowsTriggeredRun.timed_out (Some timeout) start
    (poll start check_interval (deadline_poll check_interval timeout)) = true.
Proof.
  intros Hci Ht. unfold ArgoWorkflowsTriggeredRun.timed_out, poll, deadline_poll.
  pose proof (Z.div_pos timeout check_interval Ht Hci) as Hq.
  pose proof (Z.mul_succ_div_gt timeout check_interval Hci) as Hgt.
  rewrite Z.gtb_ltb. apply Z.ltb_lt.
  rewrite Z2Nat.id by lia. nia.
Qed.

Lemma sleep_positive (check_interval now : Z) :
  0 < check_interval ->
  ArgoWorkflowsTriggeredRun.sleep check_interval now
  = Return (now + check_interval).
Proof.
  intros Hci. unfold ArgoWorkflowsTriggeredRun.sleep.
  by destruct (Z.ltb_spec check_interval 0); [lia |].
Qed.

(** With a pathspec that splits, [is_running] answers at every time. *)
Lemma is_running_answers (E : Env) (self : TriggeredRun.t) (now : Z) :
  (exists query, ArgoWorkflowsTriggeredRun.status_query self = Return query) ->
  exists b, ArgoWorkflowsTriggeredRun.is_running E now self = Return b.
Proof.
  intros [[flow_name name] Hquery].
  unfold ArgoWorkflowsTriggeredRun.is_running, ArgoWorkflowsTriggeredRun.status.
  rewrite Hquery. unfold bind.
  destruct (get_workflow_status E now flow_name name); eauto.
Qed.

Lemma wait_loop_step (E : Env) (fuel : nat) (self : TriggeredRun.t)
    (check_interval : Z) (timeout : option Z) (start_time now : Z) :
  ArgoWorkflowsTriggeredRun.wait_loop E (S fuel) self check_interval timeout
    start_time now
  = match ArgoWorkflowsTriggeredRun.is_running E now self with
    | Raise e => Some (Raise e, now)
    | Return false => Some (Return tt, now)
    | Return true =>
        if ArgoWorkflowsTriggeredRun.timed_out timeout start_time now then
          Some (Raise (TimeoutError
                  "Workflow did not complete within specified timeout."),
                now)
        else
          match ArgoWorkflowsTriggeredRun.sleep check_interval now with
          | Raise e => Some (Raise e, now)
          | Return now' =>
              ArgoWorkflowsTriggeredRun.wait_loop E fuel self check_interval
                timeout start_time now'
          end
    end.
Proof. reflexivity. Qed.

(** The loop from the [i]-th poll on, with a timeout: it returns at the
    first poll up to the deadline poll at which the run is not running,
    and raises at the deadline poll when there is none. *)
Lemma wait_loop_cases (E : Env) (self : TriggeredRun.t)
    (check_interval timeout start : Z) (d i fuel : nat) :
  0 < check_interval -> 0 <= timeout ->
  (exists query, ArgoWorkflowsTriggeredRun.status_query self = Return query) ->
  (i + d = deadline_poll check_interval timeout)%nat -> (d < fuel)%nat ->
  (exists j, (i <= j <= deadline_poll check_interval timeout)%nat
     /\ (forall i', (i <= i' < j)%nat ->
           running_at E self (poll start check_interval i'))
     /\ ~ running_at E self (poll start check_interval j)
     /\ ArgoWorkflowsTriggeredRun.wait_loop E fuel self check_interval
          (Some timeout) start (poll start check_interval i)
        = Some (Return tt, poll start check_interval j))
  \/ ((forall i', (i <= i' <= deadline_poll check_interval timeout)%nat ->
         running_at E self (poll start check_interval i'))
      /\ ArgoWorkflowsTriggeredRun.wait_loop E fuel self check_interval
           (Some timeout) start (poll start check_interval i)
         = Some (Raise (TimeoutError
                   "Workflow did not complete within specified timeout."),
                 poll start check_interval
                   (deadline_poll check_interval timeout))).
Proof.
  intros Hci Ht Hquery. revert i fuel.
  induction d as [|d IH]; intros i fuel Hid Hfuel;
    (destruct fuel as [|fuel]; [lia |]);
    destruct (is_running_answers E self (poll start check_interval i) Hquery)
      as [b Hb]; rewrite wait_loop_step, Hb; destruct b.
  - right. replace (i + 0)%nat with i in Hid by lia. subst i.
    rewrite at_deadline by done. split; [|done].
    intros i' Hi'. by replace i' with (deadline_poll check_interval timeout) by lia.
  - left. exists i. unfold running_at. rewrite Hb.
    repeat split; [lia | lia | intros; lia | discriminate].
  - rewrite before_deadline by (done || lia).
    rewrite sleep_positive by done. rewrite <- poll_succ.
    destruct (IH (S i) fuel) as [(j & Hj & Hbefore & Hnot & Hloop) | [Hall Hloop]];
      [lia | lia | left | right].
    + exists j. repeat split; [lia | lia | | exact Hnot | exact Hloop].
      intros i' Hi'. destruct (decide (i' = i)) as [->|]; [exact Hb |].
      apply Hbefore. lia.
    + split; [|exact Hloop].
      intros i' Hi'. destruct (decide (i' = i)) as [->|]; [exact Hb |].
      apply Hall. lia.
  - left. exists i. unfold running_at. rewrite Hb.
    repeat split; [lia | lia | intros; lia | discriminate].
Qed.

(** Without a timeout the loop returns at the first poll at which the
    run is not running, however late. *)
Lemma wait_loop_no_timeout (E : Env) (self : TriggeredRun.t)
    (check_interval start : Z) (d i fuel : nat) :
  0 < check_interval -> (d < fuel)%nat ->
  (forall i', (i <= i' < i + d)%nat ->
     running_at E self (poll start check_interval i')) ->
  ArgoWorkflowsTriggeredRun.is_running E
    (poll start check_interval (i + d)) self = Return false ->
  ArgoWorkflowsTriggeredRun.wait_loop E fuel self check_interval None start
    (poll start check_interval i)
  = Some (Return tt, poll start check_interval (i + d)).
Proof.
  intros Hci. revert i fuel.
  induction d as [|d IH]; intros i fuel Hfuel Hrun Hstop;
    (destruct fuel as [|fuel]; [lia |]); rewrite wait_loop_step.
  - replace (i + 0)%nat with i in * by lia. by rewrite Hstop.
  - rewrite (Hrun i) by lia.
    change (ArgoWorkflowsTriggeredRun.timed_out None start
              (poll start check_interval i)) with false.
    cbv iota. rewrite sleep_positive by done.
    rewrite <- poll_succ.
    replace (i + S d)%nat with (S i + d)%nat in * by lia.
    apply IH; [lia | | exact Hstop]. intros i' Hi'. apply Hrun. lia.
Qed.

(** C5, as the source has it. The polls are [check_interval] apart,
    and [is_running] is read anew at each. With a timeout, the wait
    raises [TimeoutError] exactly when the run is running at every poll
    up to and including the first poll at which more than the timeout
    has elapsed, and otherwise returns at the first poll at which the run
    is not running; without a timeout it returns at the first such poll
    and never raises [TimeoutError]. *)
Theorem wait_for_completion_polls (E : Env) (self : TriggeredRun.t)
    (check_interval timeout start : Z) (fuel : nat) :
  0 < check_interval -> 0 <= timeout ->
  (exists query, ArgoWorkflowsTriggeredRun.status_query self = Return query) ->
  (deadline_poll check_interval timeout < fuel)%nat ->
  (ArgoWorkflowsTriggeredRun.wait_for_completion E fuel self check_interval
     (Some timeout) start
   = Some (Raise (TimeoutError
             "Workflow did not complete within specified timeout."),
           poll start check_interval (deadline_poll check_interval timeout))
   <-> forall i, (i <= deadline_poll check_interval timeout)%nat ->
         running_at E self (poll start check_interval i))
  /\ (forall j, (j <= deadline_poll check_interval timeout)%nat ->
        (forall i, (i < j)%nat ->
           running_at E self (poll start check_interval i)) ->
        ~ running_at E self (poll start check_interval j) ->
        ArgoWorkflowsTriggeredRun.wait_for_completion E fuel self
          check_interval (Some timeout) start
        = Some (Return tt, poll start check_interval j))
  /\ (forall j fuel', (j < fuel')%nat ->
        (forall i, (i < j)%nat ->
           running_at E self (poll start check_interval i)) ->
        ~ running_at E self (poll start check_interval j) ->
        ArgoWorkflowsTriggeredRun.wait_for_completion E fuel' self
          check_interval None start
        = Some (Return tt, poll start check_interval j)).
Proof.
  intros Hci Ht Hquery Hfuel.
  unfold ArgoWorkflowsTriggeredRun.wait_for_completion.
  assert (poll start check_interval 0 = start) as Hstart
    by (unfold poll; lia).
  pose proof (wait_loop_cases E self check_interval timeout start
                (deadline_poll check_interval timeout) 0 fuel Hci Ht Hquery
                eq_refl Hfuel) as Hcases.
  rewrite Hstart in Hcases.
  split; [|split].
  - split.
    + intros Hraise i Hi.
      destruct Hcases as [(j & _ & _ & _ & Hloop) | [Hall _]].
      * rewrite Hloop in Hraise. discriminate.
      * apply Hall. lia.
    + intros Hall.
      destruct Hcases as [(j & Hj & _ & Hnot & _) | [_ Hloop]]; [|exact Hloop].
      destruct Hnot. apply Hall. lia.
  - intros j Hj Hbefore Hnot.
    destruct Hcases as [(j' & Hj' & Hbefore' & Hnot' & Hloop) | [Hall _]].
    + destruct (lt_eq_lt_dec j j') as [[Hlt | ->] | Hgt]; [| exact Hloop |].
      * destruct Hnot. apply Hbefore'. lia.
      * destruct Hnot'. by apply Hbefore.
    + destruct Hnot. apply Hall. lia.
  - intros j fuel' Hfuel' Hbefore Hnot.
    destruct (is_running_answers E self (poll start check_interval j) Hquery)
      as [[|] Hb]; [by destruct Hnot |].
    pose proof (wait_loop_no_timeout E self check_interval start j 0 fuel'
                  Hci Hfuel') as Hloop.
    rewrite Hstart in Hloop. apply Hloop.
    + intros i' Hi'. apply Hbefore. lia.
    + exact Hb.
Qed.

Lemma wait_for_completion_polls_witness :
  ArgoWorkflowsTriggeredRun.wait_for_completion
    (Sample.env (Sample.exited 0) (Return Sample.create_payload)
       (Sample.running_until 13) (Return None))
    10 (Sample.triggered "argo-workflows" "MyFlow/argo-abc123") 5 (Some 12) 0
  = Some (Return tt, poll 0 5 3).
Proof.
  apply (proj1 (proj2
           (wait_for_completion_polls
              (Sample.env (Sample.exited 0) (Return Sample.create_payload)
                 (Sample.running_until 13) (Return None))
              (Sample.triggered "argo-workflows" "MyFlow/argo-abc123")
              5 12 0 10 ltac:(lia) ltac:(lia)
              (ex_intro _ ("MyFlow", "abc123") eq_refl)
              ltac:(vm_compute; lia)))).
  - vm_compute. lia.
  - intros [|[|[|i]]] Hi; [reflexivity | reflexivity | reflexivity | lia].
  - vm_compute. discriminate.
Defined.

Lemma running_until_before (child : Runner.CommandManager)
    (payload : result string) (lookup : result (option (list pyval)))
    (finish now : Z) :
  now < finish ->
  running_at (Sample.env child payload (Sample.running_until finish) lookup)
    (Sample.triggered "argo-workflows" "MyFlow/argo-abc123") now.
Proof.
  intros Hnow. unfold running_at.
  unfold ArgoWorkflowsTriggeredRun.is_running, ArgoWorkflowsTriggeredRun.status.
  change (ArgoWorkflowsTriggeredRun.status_query
            (Sample.triggered "argo-workflows" "MyFlow/argo-abc123"))
    with (Return (A := string * string) ("MyFlow", "abc123")).
  unfold bind, Sample.env, get_workflow_status, Sample.running_until.
  assert ((now <? finish) = true) as -> by (apply Z.ltb_lt; lia).
  reflexivity.
Qed.

(** C5, as the claim has it, fails. Polls every 5 with a timeout of 12,
    and a run that is running from 0 up to 13: [is_running] holds during
    the whole of the timeout, and the wait returns normally at the poll
    of time 15. Polls every 5 with a timeout of 10, and a run that is
    running up to 11: [is_running] holds during the whole of the
    timeout and at the poll at which exactly the timeout has elapsed, and
    the wait again returns normally at the poll of time 15. *)
Lemma wait_returns_after_timeout :
  let self := Sample.triggered "argo-workflows" "MyFlow/argo-abc123" in
  let E13 := Sample.env (Sample.exited 0) (Return Sample.create_payload)
               (Sample.running_until 13) (Return None) in
  let E11 := Sample.env (Sample.exited 0) (Return Sample.create_payload)
               (Sample.running_until 11) (Return None) in
  ((forall now, 0 <= now <= 12 -> running_at E13 self now)
   /\ ArgoWorkflowsTriggeredRun.wait_for_completion E13 10 self 5 (Some 12) 0
      = Some (Return tt, 15))
  /\ ((forall now, 0 <= now <= 10 -> running_at E11 self now)
      /\ ArgoWorkflowsTriggeredRun.wait_for_completion E11 10 self 5 (Some 10) 0
         = Some (Return tt, 15)).
Proof.
  intros self E13 E11. split; (split; [|vm_compute; reflexivity]).
  - intros now Hnow. apply running_until_before. lia.
  - intros now Hnow. apply running_until_before. lia.
Qed.

(** * Further properties of the three files *)

(** ** Keywords given to a verb *)

Lemma call_kw_fresh (key : string) (v : pyval) (star : gmap string pyval) :
  star !! key = None ->
  call_kw [(key, v)] star = Return (<[key := v]> star).
Proof.
  intros Hfresh. unfold call_kw. simpl. rewrite Hfresh.
  rewrite bool_decide_eq_false_2 by (by intros [? ?]). simpl.
  f_equal. by rewrite insert_empty, <- insert_union_singleton_l.
Qed.

Lemma call_kw_twice (key : string) (v : pyval) (star : gmap string pyval) :
  is_Some (star !! key) -> call_kw [(key, v)] star = Raise TypeError.
Proof.
  intros Hsome. unfold call_kw. simpl.
  by rewrite bool_decide_eq_true_2.
Qed.

Lemma py_split_pathspec (self : TriggeredRun.t) (flow_name run_id : string) :
  TriggeredRun.pathspec self = PStr (flow_name ++ "/" ++ run_id) ->
  no_slash flow_name = true -> no_slash run_id = true ->
  py_split (TriggeredRun.pathspec self) = Return [flow_name; run_id].
Proof.
  intros -> Hflow Hrun. unfold py_split.
  by rewrite (split_pathspec _ _ Hflow Hrun).
Qed.

(** ** The verbs of an Argo run and of an Argo flow *)

(** X1. [suspend], [unsuspend] and [terminate] of an Argo run whose
    pathspec is [flow_name/run_id]: the command of the verb is built with
    the keyword [run_id] bound to the whole run id, prefix included, next
    to the caller's keywords, and the answer is whether the child, waited
    for, exited with zero. *)
Theorem argo_verbs_report_exit_code (E : Env) (verb : string)
    (self : TriggeredRun.t) (kwargs : gmap string pyval)
    (flow_name run_id : string) (group : Group) (command : list string) :
  TriggeredRun.pathspec self = PStr (flow_name ++ "/" ++ run_id) ->
  no_slash flow_name = true -> no_slash run_id = true ->
  kwargs !! "run_id" = None ->
  get_lower_level_group (DeployerImpl.api (TriggeredRun.deployer self))
    (DeployerImpl.top_level_kwargs (TriggeredRun.deployer self))
    (DeployerImpl.TYPE (TriggeredRun.deployer self))
    (DeployerImpl.deployer_kwargs (TriggeredRun.deployer self))
  = Return group ->
  group verb (<["run_id" := PStr run_id]> kwargs) = Return command ->
  ArgoWorkflowsTriggeredRun.lifecycle E verb self kwargs
  = Return (Runner.exit_status (spawn E command (TriggeredRun.deployer self))
            =? 0).
Proof.
  intros Hpath Hflow Hrun Hfresh Hgroup Hcommand.
  unfold ArgoWorkflowsTriggeredRun.lifecycle.
  rewrite (py_split_pathspec self flow_name run_id Hpath Hflow Hrun). simpl.
  rewrite Hgroup. simpl. rewrite (call_kw_fresh _ _ _ Hfresh). simpl.
  rewrite Hcommand. reflexivity.
Qed.

Lemma argo_verbs_report_exit_code_witness :
  ArgoWorkflowsTriggeredRun.suspend
    (Sample.env (Sample.still_running 3) (Return Sample.create_payload)
       (fun _ => None) (Return None))
    (Sample.triggered "argo-workflows" "MyFlow/argo-abc123") ∅
  = Return false.
Proof.
  apply (argo_verbs_report_exit_code
           (Sample.env (Sample.still_running 3) (Return Sample.create_payload)
              (fun _ => None) (Return None))
           "suspend" (Sample.triggered "argo-workflows" "MyFlow/argo-abc123")
           ∅ "MyFlow" "argo-abc123"
           (fun verb _ => Return ["flow.py"; "argo-workflows"; verb])
           ["flow.py"; "argo-workflows"; "suspend"]); reflexivity.
Defined.

(** X2. [delete] of an Argo flow hands the caller's keywords to the
    [delete] command of the group as they are, and answers whether the
    child, waited for, exited with zero. *)
Theorem argo_delete_reports_exit_code (E : Env) (self : DeployedFlow.t)
    (kwargs : gmap string pyval) (group : Group) (command : list string) :
  get_lower_level_group (DeployerImpl.api (DeployedFlow.deployer self))
    (DeployerImpl.top_level_kwargs (DeployedFlow.deployer self))
    (DeployerImpl.TYPE (DeployedFlow.deployer self))
    (DeployerImpl.deployer_kwargs (DeployedFlow.deployer self))
  = Return group ->
  group "delete" kwargs = Return command ->
  ArgoWorkflowsDeployedFlow.delete E self kwargs
  = Return (Runner.exit_status (spawn E command (DeployedFlow.deployer self))
            =? 0).
Proof.
  intros Hgroup Hcommand. unfold ArgoWorkflowsDeployedFlow.delete.
  rewrite Hgroup. simpl. rewrite Hcommand. reflexivity.
Qed.

Lemma argo_delete_reports_exit_code_witness :
  ArgoWorkflowsDeployedFlow.delete
    (Sample.env (Sample.still_running 0) (Return Sample.create_payload)
       (fun _ => None) (Return None))
    (Sample.flow "argo-workflows") ∅
  = Return true.
Proof.
  apply (argo_delete_reports_exit_code
           (Sample.env (Sample.still_running 0) (Return Sample.create_payload)
              (fun _ => None) (Return None))
           (Sample.flow "argo-workflows") ∅
           (fun verb _ => Return ["flow.py"; "argo-workflows"; verb])
           ["flow.py"; "argo-workflows"; "delete"]); reflexivity.
Defined.

(** X3. A keyword the operation binds itself cannot come from the
    caller: [run_id] given to a verb of a run, or
    [deployer_attribute_file] given to [trigger] or to [_create], is a
    [TypeError], and [_create] leaves the deployer as it was. *)
Theorem reserved_keyword_given_twice (E : Env) (kwargs : gmap string pyval) :
  (forall verb self flow_name run_id group,
     TriggeredRun.pathspec self = PStr (flow_name ++ "/" ++ run_id) ->
     no_slash flow_name = true -> no_slash run_id = true ->
     get_lower_level_group (DeployerImpl.api (TriggeredRun.deployer self))
       (DeployerImpl.top_level_kwargs (TriggeredRun.deployer self))
       (DeployerImpl.TYPE (TriggeredRun.deployer self))
       (DeployerImpl.deployer_kwargs (TriggeredRun.deployer self))
     = Return group ->
     is_Some (kwargs !! "run_id") ->
     ArgoWorkflowsTriggeredRun.lifecycle E verb self kwargs = Raise TypeError
     /\ StepFunctions.terminate E self kwargs = Raise TypeError)
  /\ (forall self group,
        get_lower_level_group (DeployerImpl.api (DeployedFlow.deployer self))
          (DeployerImpl.top_level_kwargs (DeployedFlow.deployer self))
          (DeployerImpl.TYPE (DeployedFlow.deployer self))
          (DeployerImpl.deployer_kwargs (DeployedFlow.deployer self))
        = Return group ->
        is_Some (kwargs !! "deployer_attribute_file") ->
        ArgoWorkflowsDeployedFlow.trigger E self kwargs = Raise TypeError)
  /\ (forall create_class self group,
        get_lower_level_group (DeployerImpl.api self)
          (DeployerImpl.top_level_kwargs self) (DeployerImpl.TYPE self)
          (DeployerImpl.deployer_kwargs self)
        = Return group ->
        is_Some (kwargs !! "deployer_attribute_file") ->
        _create E create_class kwargs self = (Raise TypeError, self)).
Proof.
  split; [|split].
  - intros verb self flow_name run_id group Hpath Hflow Hrun Hgroup Hsome.
    unfold ArgoWorkflowsTriggeredRun.lifecycle, StepFunctions.terminate.
    rewrite (py_split_pathspec self flow_name run_id Hpath Hflow Hrun). simpl.
    rewrite Hgroup. simpl. by rewrite (call_kw_twice _ _ _ Hsome).
  - intros self group Hgroup Hsome. unfold ArgoWorkflowsDeployedFlow.trigger.
    rewrite Hgroup. simpl. by rewrite (call_kw_twice _ _ _ Hsome).
  - intros create_class self group Hgroup Hsome.
    apply _create_no_command. unfold create_command.
    rewrite Hgroup. simpl. by rewrite (call_kw_twice _ _ _ Hsome).
Qed.

Lemma reserved_keyword_given_twice_witness :
  ArgoWorkflowsTriggeredRun.terminate Sample.quiet
    (Sample.triggered "argo-workflows" "MyFlow/argo-abc123")
    {["run_id" := PStr "argo-other"]}
  = Raise TypeError.
Proof.
  apply (proj1 (reserved_keyword_given_twice Sample.quiet
                  {["run_id" := PStr "argo-other"]})
           "terminate" (Sample.triggered "argo-workflows" "MyFlow/argo-abc123")
           "MyFlow" "argo-abc123"
           (fun verb _ => Return ["flow.py"; "argo-workflows"; verb]));
    try reflexivity.
  by eexists.
Defined.

(** ** Pathspecs the status query accepts *)

Lemma split_nonempty (sep : ascii) (s : string) : split sep s <> [].
Proof.
  destruct s as [|c s]; simpl; [done |].
  destruct (Ascii.eqb c sep); [done |]. by destruct (split sep s).
Qed.

Lemma split_one (s piece : string) :
  split "/" s = [piece] -> s = piece /\ no_slash piece = true.
Proof.
  revert piece. induction s as [|c s IH]; intros piece.
  - by intros [= <-].
  - change (split "/" (String c s))
      with (if Ascii.eqb c "/" then EmptyString :: split "/" s
            else match split "/" s with
                 | piece :: pieces => String c piece :: pieces
                 | [] => [String c EmptyString]
                 end).
    destruct (Ascii.eqb c "/") eqn:Hc.
    + intros [= _ Hrest]. by destruct (split_nonempty "/" s).
    + destruct (split "/" s) as [|p ps] eqn:Hs;
        [by destruct (split_nonempty "/" s) |].
      intros [= <- ->]. destruct (IH p eq_refl) as [-> Hp].
      split; [done |]. simpl. by rewrite Hc, Hp.
Qed.

Lemma split_two (s a b : string) :
  split "/" s = [a; b] ->
  s = a ++ "/" ++ b /\ no_slash a = true /\ no_slash b = true.
Proof.
  revert a. induction s as [|c s IH]; intros a.
  - intros [=].
  - change (split "/" (String c s))
      with (if Ascii.eqb c "/" then EmptyString :: split "/" s
            else match split "/" s with
                 | piece :: pieces => String c piece :: pieces
                 | [] => [String c EmptyString]
                 end).
    destruct (Ascii.eqb c "/") eqn:Hc.
    + intros [= <- Hrest]. apply Ascii.eqb_eq in Hc as ->.
      destruct (split_one s b Hrest) as [-> Hb]. by split; [|split].
    + destruct (split "/" s) as [|p ps] eqn:Hs; [intros [=] |].
      intros [= <- ->]. destruct (IH p eq_refl) as (-> & Hp & Hb).
      split; [done | split; [|done]]. simpl. by rewrite Hc, Hp.
Qed.

Lemma unpack2_two {A} (xs : list A) (a b : A) :
  unpack2 xs = Return (a, b) -> xs = [a; b].
Proof.
  destruct xs as [|x [|y [|z xs]]]; simpl; try discriminate.
  by intros [= -> ->].
Qed.

(** X4. The status query of an Argo run succeeds exactly on a pathspec
    that is a string with one [/]: it then asks for what is before the
    [/] and for what is after it without its first five characters. A
    pathspec without [/], or with a step or task after the run id, has
    no status. *)
Theorem status_query_domain (self : TriggeredRun.t) (flow_name name : string) :
  ArgoWorkflowsTriggeredRun.status_query self = Return (flow_name, name)
  <-> exists run_id,
        TriggeredRun.pathspec self = PStr (flow_name ++ "/" ++ run_id)
        /\ no_slash flow_name = true /\ no_slash run_id = true
        /\ name = slice_from 5 run_id.
Proof.
  split.
  - unfold ArgoWorkflowsTriggeredRun.status_query, py_split.
    destruct (TriggeredRun.pathspec self) as [| | |s| |]; try discriminate.
    simpl. destruct (unpack2 (split "/" s)) as [[f run_id]|] eqn:Hsplit;
      [|discriminate].
    simpl. intros [= -> <-]. exists run_id.
    apply unpack2_two in Hsplit.
    destruct (split_two s flow_name run_id Hsplit) as (-> & Hf & Hr).
    by repeat split.
  - intros (run_id & Hpath & Hflow & Hrun & ->).
    by apply status_query_pathspec.
Qed.

(** X5. A run id of five characters or fewer is queried under the empty
    name: the slice past its end is empty, and nothing is raised. *)
Theorem status_query_short_run_id (self : TriggeredRun.t)
    (flow_name run_id : string) :
  TriggeredRun.pathspec self = PStr (flow_name ++ "/" ++ run_id) ->
  no_slash flow_name = true -> no_slash run_id = true ->
  (String.length run_id <= 5)%nat ->
  ArgoWorkflowsTriggeredRun.status_query self
  = Return (flow_name, EmptyString).
Proof.
  intros Hpath Hflow Hrun Hshort.
  rewrite (status_query_pathspec self flow_name run_id Hpath Hflow Hrun).
  do 2 f_equal. clear -Hshort.
  do 5 (destruct run_id as [|? run_id]; [reflexivity | simpl in Hshort]).
  destruct run_id; [reflexivity | simpl in Hshort; lia].
Qed.

Lemma status_query_short_run_id_witness :
  ArgoWorkflowsTriggeredRun.status_query
    (Sample.triggered "argo-workflows" "MyFlow/argo-")
  = Return ("MyFlow", EmptyString).
Proof.
  apply (status_query_short_run_id
           (Sample.triggered "argo-workflows" "MyFlow/argo-")
           "MyFlow" "argo-"); reflexivity.
Defined.

(** X6. A run whose pathspec is [None], as [trigger] returns it for a
    payload without pathspec, cannot be operated: every verb, the status,
    [is_running] and the wait raise [AttributeError], the wait at its
    first poll. *)
Theorem null_pathspec_run_raises (E : Env) (self : TriggeredRun.t) :
  TriggeredRun.pathspec self = PNone ->
  (forall verb kwargs,
     ArgoWorkflowsTriggeredRun.lifecycle E verb self kwargs
     = Raise AttributeError)
  /\ (forall kwargs,
        StepFunctions.terminate E self kwargs = Raise AttributeError)
  /\ (forall now,
        ArgoWorkflowsTriggeredRun.status E now self = Raise AttributeError
        /\ ArgoWorkflowsTriggeredRun.is_running E now self
           = Raise AttributeError)
  /\ (forall fuel check_interval timeout now,
        ArgoWorkflowsTriggeredRun.wait_for_completion E (S fuel) self
          check_interval timeout now
        = Some (Raise AttributeError, now)).
Proof.
  intros Hpath.
  assert (forall now, ArgoWorkflowsTriggeredRun.is_running E now self
                      = Raise AttributeError) as Hrunning.
  { intros now.
    unfold ArgoWorkflowsTriggeredRun.is_running,
      ArgoWorkflowsTriggeredRun.status,
      ArgoWorkflowsTriggeredRun.status_query.
    by rewrite Hpath. }
  split; [|split; [|split]].
  - intros verb kwargs. unfold ArgoWorkflowsTriggeredRun.lifecycle.
    by rewrite Hpath.
  - intros kwargs. unfold StepFunctions.terminate. by rewrite Hpath.
  - intros now. split; [|apply Hrunning].
    unfold ArgoWorkflowsTriggeredRun.status,
      ArgoWorkflowsTriggeredRun.status_query.
    by rewrite Hpath.
  - intros fuel check_interval timeout now.
    unfold ArgoWorkflowsTriggeredRun.wait_for_completion.
    by rewrite wait_loop_step, Hrunning.
Qed.

Lemma null_pathspec_run_raises_witness :
  ArgoWorkflowsTriggeredRun.wait_for_completion Sample.quiet 1
    {| TriggeredRun.deployer := Sample.created "argo-workflows";
       TriggeredRun.metadata_for_flow := PStr "service";
       TriggeredRun.pathspec := PNone;
       TriggeredRun.name := PStr "my-run" |}
    5 None 0
  = Some (Raise AttributeError, 0).
Proof.
  apply (null_pathspec_run_raises Sample.quiet
           {| TriggeredRun.deployer := Sample.created "argo-workflows";
              TriggeredRun.metadata_for_flow := PStr "service";
              TriggeredRun.pathspec := PNone;
              TriggeredRun.name := PStr "my-run" |}).
  reflexivity.
Defined.

(** ** Waiting: the workflow the orchestrator does not know, and the wait
    without a timeout *)

(** X7. When the orchestrator has no status for the workflow at the
    time of the first poll, [is_running] is false and
    [wait_for_completion] returns at once, without sleeping and whatever
    the timeout: a run that is not known yet counts as complete. *)
Theorem wait_returns_when_status_unknown (E : Env) (self : TriggeredRun.t)
    (flow_name name : string) (fuel : nat) (check_interval : Z)
    (timeout : option Z) (now : Z) :
  ArgoWorkflowsTriggeredRun.status_query self = Return (flow_name, name) ->
  get_workflow_status E now flow_name name = None ->
  ArgoWorkflowsTriggeredRun.status E now self = Return None
  /\ ArgoWorkflowsTriggeredRun.is_running E now self = Return false
  /\ ArgoWorkflowsTriggeredRun.wait_for_completion E (S fuel) self
       check_interval timeout now
     = Some (Return tt, now).
Proof.
  intros Hquery Hstatus.
  assert (ArgoWorkflowsTriggeredRun.status E now self = Return None) as Hs.
  { unfold ArgoWorkflowsTriggeredRun.status. rewrite Hquery. unfold bind.
    by rewrite Hstatus. }
  assert (ArgoWorkflowsTriggeredRun.is_running E now self = Return false)
    as Hrunning.
  { unfold ArgoWorkflowsTriggeredRun.is_running. by rewrite Hs. }
  repeat split; [exact Hs | exact Hrunning |].
  unfold ArgoWorkflowsTriggeredRun.wait_for_completion.
  by rewrite wait_loop_step, Hrunning.
Qed.

Lemma wait_returns_when_status_unknown_witness :
  ArgoWorkflowsTriggeredRun.wait_for_completion Sample.quiet 1
    (Sample.triggered "argo-workflows" "MyFlow/argo-abc123") 5 (Some 60) 0
  = Some (Return tt, 0).
Proof.
  apply (wait_returns_when_status_unknown Sample.quiet
           (Sample.triggered "argo-workflows" "MyFlow/argo-abc123")
           "MyFlow" "abc123" 0 5 (Some 60) 0); reflexivity.
Defined.

(** X8. Without a timeout, and with a run that is running at every
    poll, [wait_for_completion] never ends: whatever the number of polls
    allowed, the loop is still going after them. *)
Theorem wait_without_timeout_never_ends (E : Env) (self : TriggeredRun.t)
    (check_interval start : Z) (fuel : nat) :
  0 <= check_interval ->
  (forall i : nat, running_at E self (poll start check_interval i)) ->
  ArgoWorkflowsTriggeredRun.wait_for_completion E fuel self check_interval
    None start
  = None.
Proof.
  intros Hci Hrunning. unfold ArgoWorkflowsTriggeredRun.wait_for_completion.
  assert (forall fuel i,
            ArgoWorkflowsTriggeredRun.wait_loop E fuel self check_interval
              None start (poll start check_interval i) = None) as Hloop.
  { clear fuel. induction fuel as [|fuel IH]; intros i; [reflexivity |].
    rewrite wait_loop_step, (Hrunning i).
    change (ArgoWorkflowsTriggeredRun.timed_out None start
              (poll start check_interval i)) with false.
    cbv iota. unfold ArgoWorkflowsTriggeredRun.sleep.
    destruct (Z.ltb_spec check_interval 0); [lia |].
    rewrite <- poll_succ. apply IH. }
  specialize (Hloop fuel 0%nat).
  replace (poll start check_interval 0) with start in Hloop
    by (unfold poll; lia).
  exact Hloop.
Qed.

Lemma wait_without_timeout_never_ends_witness :
  ArgoWorkflowsTriggeredRun.wait_for_completion
    (Sample.env (Sample.exited 0) (Return Sample.create_payload)
       (fun _ => Some "Running") (Return None))
    1000 (Sample.triggered "argo-workflows" "MyFlow/argo-abc123") 5 None 0
  = None.
Proof.
  apply (wait_without_timeout_never_ends
           (Sample.env (Sample.exited 0) (Return Sample.create_payload)
              (fun _ => Some "Running") (Return None))
           (Sample.triggered "argo-workflows" "MyFlow/argo-abc123") 5 0 1000).
  - lia.
  - intros i. reflexivity.
Defined.

(** ** Waiting for the run object *)

Lemma wait_for_run_loop_step (E : Env) (fuel : nat) (self : TriggeredRun.t)
    (timeout : option Z) (start_time now : Z) :
  wait_for_run_loop E (S fuel) self timeout start_time now
  = match TriggeredRun.run E now self with
    | Some _ => Some (Return (TriggeredRun.run E now self), now)
    | None =>
        if ArgoWorkflowsTriggeredRun.timed_out timeout start_time now then
          Some (Raise (TimeoutError
                  "Timed out waiting for the run object to become available."),
                now)
        else
          match ArgoWorkflowsTriggeredRun.sleep
                  wait_for_run_check_interval now with
          | Raise e => Some (Raise e, now)
          | Return now' =>
              wait_for_run_loop E fuel self timeout start_time now'
          end
    end.
Proof. reflexivity. Qed.

(** The loop from the [i]-th poll on: it returns the run at the first
    poll up to the deadline poll at which there is one, and raises at the
    deadline poll when there is none. *)
Lemma wait_for_run_loop_cases (E : Env) (self : TriggeredRun.t)
    (timeout start : Z) (d i fuel : nat) :
  0 <= timeout ->
  (i + d = deadline_poll 5 timeout)%nat -> (d < fuel)%nat ->
  (exists j r, (i <= j <= deadline_poll 5 timeout)%nat
     /\ (forall i', (i <= i' < j)%nat ->
           TriggeredRun.run E (poll start 5 i') self = None)
     /\ TriggeredRun.run E (poll start 5 j) self = Some r
     /\ wait_for_run_loop E fuel self (Some timeout) start (poll start 5 i)
        = Some (Return (Some r), poll start 5 j))
  \/ ((forall i', (i <= i' <= deadline_poll 5 timeout)%nat ->
         TriggeredRun.run E (poll start 5 i') self = None)
      /\ wait_for_run_loop E fuel self (Some timeout) start (poll start 5 i)
         = Some (Raise (TimeoutError
                   "Timed out waiting for the run object to become available."),
                 poll start 5 (deadline_poll 5 timeout))).
Proof.
  intros Ht. revert i fuel.
  induction d as [|d IH]; intros i fuel Hid Hfuel;
    (destruct fuel as [|fuel]; [lia |]);
    rewrite wait_for_run_loop_step;
    destruct (TriggeredRun.run E (poll start 5 i) self) as [r|] eqn:Hr.
  - left. exists i, r. repeat split; [lia | lia | intros; lia | done].
  - right. replace (i + 0)%nat with i in Hid by lia. subst i.
    rewrite at_deadline by lia. split; [|done].
    intros i' Hi'. by replace i' with (deadline_poll 5 timeout) by lia.
  - left. exists i, r. repeat split; [lia | lia | intros; lia | done].
  - rewrite before_deadline by lia.
    unfold wait_for_run_check_interval.
    rewrite sleep_positive by lia. rewrite <- poll_succ.
    destruct (IH (S i) fuel)
      as [(j & r & Hj & Hbefore & Hfound & Hloop) | [Hall Hloop]];
      [lia | lia | left | right].
    + exists j, r. repeat split; [lia | lia | | exact Hfound | exact Hloop].
      intros i' Hi'. destruct (decide (i' = i)) as [->|]; [exact Hr |].
      apply Hbefore. lia.
    + split; [|exact Hloop].
      intros i' Hi'. destruct (decide (i' = i)) as [->|]; [exact Hr |].
      apply Hall. lia.
Qed.

Lemma wait_for_run_loop_no_timeout (E : Env) (self : TriggeredRun.t)
    (start : Z) (r : pyval) (d i fuel : nat) :
  (d < fuel)%nat ->
  (forall i', (i <= i' < i + d)%nat ->
     TriggeredRun.run E (poll start 5 i') self = None) ->
  TriggeredRun.run E (poll start 5 (i + d)) self = Some r ->
  wait_for_run_loop E fuel self None start (poll start 5 i)
  = Some (Return (Some r), poll start 5 (i + d)).
Proof.
  revert i fuel.
  induction d as [|d IH]; intros i fuel Hfuel Hnone Hfound;
    (destruct fuel as [|fuel]; [lia |]); rewrite wait_for_run_loop_step.
  - replace (i + 0)%nat with i in * by lia. by rewrite Hfound.
  - rewrite (Hnone i) by lia.
    change (ArgoWorkflowsTriggeredRun.timed_out None start (poll start 5 i))
      with false.
    cbv iota. unfold wait_for_run_check_interval.
    rewrite sleep_positive by lia. rewrite <- poll_succ.
    replace (i + S d)%nat with (S i + d)%nat in * by lia.
    apply IH; [lia | | exact Hfound]. intros i' Hi'. apply Hnone. lia.
Qed.

(** X9. [wait_for_run] polls the [run] property every 5 seconds. With
    a timeout it raises [TimeoutError] exactly when there is no run at
    any poll up to and including the first poll at which more than the
    timeout has elapsed, and otherwise returns the run of the first poll
    that has one; without a timeout it returns the run of the first poll
    that has one, however late. *)
Theorem wait_for_run_polls (E : Env) (self : TriggeredRun.t)
    (timeout start : Z) (fuel : nat) :
  0 <= timeout ->
  (deadline_poll 5 timeout < fuel)%nat ->
  (wait_for_run E fuel self (Some timeout) start
   = Some (Raise (TimeoutError
             "Timed out waiting for the run object to become available."),
           poll start 5 (deadline_poll 5 timeout))
   <-> forall i, (i <= deadline_poll 5 timeout)%nat ->
         TriggeredRun.run E (poll start 5 i) self = None)
  /\ (forall j r, (j <= deadline_poll 5 timeout)%nat ->
        (forall i, (i < j)%nat ->
           TriggeredRun.run E (poll start 5 i) self = None) ->
        TriggeredRun.run E (poll start 5 j) self = Some r ->
        wait_for_run E fuel self (Some timeout) start
        = Some (Return (Some r), poll start 5 j))
  /\ (forall j r fuel', (j < fuel')%nat ->
        (forall i, (i < j)%nat ->
           TriggeredRun.run E (poll start 5 i) self = None) ->
        TriggeredRun.run E (poll start 5 j) self = Some r ->
        wait_for_run E fuel' self None start
        = Some (Return (Some r), poll start 5 j)).
Proof.
  intros Ht Hfuel. unfold wait_for_run.
  assert (poll start 5 0 = start) as Hstart by (unfold poll; lia).
  pose proof (wait_for_run_loop_cases E self timeout start
                (deadline_poll 5 timeout) 0 fuel Ht eq_refl Hfuel) as Hcases.
  rewrite Hstart in Hcases.
  split; [|split].
  - split.
    + intros Hraise i Hi.
      destruct Hcases as [(j & r & _ & _ & _ & Hloop) | [Hall _]].
      * rewrite Hloop in Hraise. discriminate.
      * apply Hall. lia.
    + intros Hall.
      destruct Hcases as [(j & r & Hj & _ & Hfound & _) | [_ Hloop]];
        [|exact Hloop].
      rewrite Hall in Hfound by lia. discriminate.
  - intros j r Hj Hbefore Hfound.
    destruct Hcases as [(j' & r' & Hj' & Hbefore' & Hfound' & Hloop) | [Hall _]].
    + destruct (lt_eq_lt_dec j j') as [[Hlt | ->] | Hgt].
      * rewrite Hbefore' in Hfound by lia. discriminate.
      * rewrite Hfound in Hfound'. by injection Hfound' as <-.
      * rewrite Hbefore in Hfound' by lia. discriminate.
    + rewrite Hall in Hfound by lia. discriminate.
  - intros j r fuel' Hfuel' Hbefore Hfound.
    pose proof (wait_for_run_loop_no_timeout E self start r j 0 fuel' Hfuel')
      as Hloop.
    rewrite Hstart in Hloop. apply Hloop.
    + intros i' Hi'. apply Hbefore. lia.
    + exact Hfound.
Qed.

Lemma wait_for_run_polls_witness :
  wait_for_run (Sample2.with_run 7) 10
    (Sample.triggered "argo-workflows" "MyFlow/argo-abc123") (Some 12) 0
  = Some (Return (Some (PStr "run")), poll 0 5 2).
Proof.
  apply (proj1 (proj2
           (wait_for_run_polls (Sample2.with_run 7)
              (Sample.triggered "argo-workflows" "MyFlow/argo-abc123")
              12 0 10 ltac:(lia) ltac:(vm_compute; lia)))).
  - vm_compute. lia.
  - intros [|[|i]] Hi; [reflexivity | reflexivity | lia].
  - reflexivity.
Defined.

(** ** Binding a deployer *)


(** ** The classes the metaclasses make *)

Lemma inject_lookup (providers : list ProviderClass)
    (cls cls' : gmap string DeployerMeta.injected) (name : string) :
  DeployerMeta.inject providers cls = Return cls' ->
  cls' !! name
  = match last_named name providers with
    | Some provider =>
        Some (DeployerMeta._injected_method (construct provider))
    | None => cls !! name
    end.
Proof.
  revert cls. induction providers as [|p ps IH]; intros cls; simpl.
  - by intros [= ->].
  - unfold method_name. destruct (TYPE p) as [type|]; [simpl | done].
    intros Hinject. rewrite (IH _ Hinject).
    destruct (last_named name ps); [done |].
    destruct (String.eqb_spec (replace "-" "_" type) name) as [->|Hne].
    + apply lookup_insert_eq.
    + by apply lookup_insert_ne.
Qed.

Lemma inject_raises (providers : list ProviderClass)
    (cls : gmap string DeployerMeta.injected) :
  (exists p, p ∈ providers /\ TYPE p = None) ->
  DeployerMeta.inject providers cls = Raise AttributeError.
Proof.
  revert cls. induction providers as [|p ps IH]; intros cls (p0 & Hin & Hnone).
  - by apply elem_of_nil in Hin.
  - simpl. unfold method_name. destruct (TYPE p) as [type|] eqn:Hp; [simpl | done].
    apply IH. exists p0. split; [|done].
    apply elem_of_cons in Hin as [->|Hin]; [congruence | done].
Qed.

(** X11. Making the [Deployer] class succeeds exactly when every
    provider of the registry has a [TYPE], and otherwise raises
    [AttributeError]. When it succeeds, each attribute of the class is
    the method of the provider registered last under that name, and is
    what the class body had under a name no provider gives. *)
Theorem deployer_class_attributes (providers : list ProviderClass)
    (dct : gmap string DeployerMeta.injected) :
  ((forall p, p ∈ providers -> is_Some (TYPE p)) ->
   exists cls,
     DeployerMeta.__new__ providers dct = Return cls
     /\ forall name,
          cls !! name
          = match last_named name providers with
            | Some provider =>
                Some (DeployerMeta._injected_method (construct provider))
            | None => dct !! name
            end)
  /\ ((exists p, p ∈ providers /\ TYPE p = None) ->
      DeployerMeta.__new__ providers dct = Raise AttributeError).
Proof.
  split.
  - intros Htypes.
    destruct (inject_total providers dct Htypes) as [cls Hcls].
    exists cls. split; [exact Hcls |].
    intros name. by apply inject_lookup.
  - apply inject_raises.
Qed.

Lemma deployer_class_attributes_witness :
  exists cls,
    DeployerMeta.__new__ Sample.registry ∅ = Return cls
    /\ forall name,
         cls !! name
         = match last_named name Sample.registry with
           | Some provider =>
               Some (DeployerMeta._injected_method (construct provider))
           | None => (∅ : gmap string DeployerMeta.injected) !! name
           end.
Proof.
  apply (proj1 (deployer_class_attributes Sample.registry ∅)).
  intros p Hp. apply list_elem_of_In in Hp.
  destruct Hp as [<-|[<-|[]]]; by eexists.
Defined.

Lemma allowed_providers_lookup (providers : list ProviderClass)
    (acc allowed : gmap string ProviderClass) (key : string) :
  DeployedFlowMeta.allowed_providers providers acc = Return allowed ->
  allowed !! key
  = match last_named key providers with
    | Some provider => Some provider
    | None => acc !! key
    end.
Proof.
  revert acc. induction providers as [|p ps IH]; intros acc; simpl.
  - by intros [= ->].
  - unfold method_name. destruct (TYPE p) as [type|]; [simpl | done].
    intros Hallowed. rewrite (IH _ Hallowed).
    destruct (last_named key ps); [done |].
    destruct (String.eqb_spec (replace "-" "_" type) key) as [->|Hne].
    + apply lookup_insert_eq.
    + by apply lookup_insert_ne.
Qed.

Lemma allowed_providers_total (providers : list ProviderClass)
    (acc : gmap string ProviderClass) :
  (forall p, p ∈ providers -> is_Some (TYPE p)) ->
  exists allowed,
    DeployedFlowMeta.allowed_providers providers acc = Return allowed.
Proof.
  revert acc. induction providers as [|p ps IH]; intros acc Htype; simpl.
  - by exists acc.
  - destruct (Htype p) as [type Hp]; [by left |].
    unfold method_name. rewrite Hp. simpl.
    apply IH. intros p' Hin. apply Htype. by right.
Qed.

Lemma replace_no_dash (s : string) : has_dash (replace "-" "_" s) = false.
Proof.
  induction s as [|c s IH]; simpl; [done |].
  rewrite IH, orb_false_r.
  destruct (Ascii.eqb c "-") eqn:Hc; [reflexivity | exact Hc].
Qed.

Lemma last_named_dash (key : string) (providers : list ProviderClass) :
  has_dash key = true -> last_named key providers = None.
Proof.
  intros Hdash. induction providers as [|p ps IH]; simpl; [done |].
  rewrite IH. destruct (TYPE p) as [type|]; [|done].
  destruct (String.eqb_spec (replace "-" "_" type) key) as [<-|]; [|done].
  by rewrite replace_no_dash in Hdash.
Qed.

(** X12. In a registry whose providers all have a [TYPE], the injected
    [from_deployment] looks the implementation up by method name, the
    [TYPE] with [_] for [-]: under the method name of a provider it hands
    the identifier, the metadata and the key, unchanged, to the
    [from_deployment] of the flow class of the provider registered last
    under that name, returns that handle and lets its exception through,
    and raises [AttributeError] when that provider has no flow class. No
    key with a [-] in it is ever found, a [TYPE] such as
    ["argo-workflows"] included. *)
Theorem from_deployment_dispatch (providers : list ProviderClass) :
  (forall p, p ∈ providers -> is_Some (TYPE p)) ->
  exists from_deployment,
    DeployedFlowMeta.__new__ providers = Return from_deployment
    /\ (forall identifier metadata impl provider,
          last_named impl providers = Some provider ->
          from_deployment identifier metadata impl
          = match DEPLOYED_FLOW_TYPE provider with
            | Some flow_type =>
                let! flow := cls_from_deployment flow_type identifier
                               metadata impl in
                Return (Some flow)
            | None => Raise AttributeError
            end)
    /\ (forall identifier metadata impl,
          has_dash impl = true ->
          from_deployment identifier metadata impl = Return None).
Proof.
  intros Htypes.
  destruct (allowed_providers_total providers ∅ Htypes) as [allowed Hallowed].
  exists (DeployedFlowMeta.f allowed).
  unfold DeployedFlowMeta.__new__. rewrite Hallowed.
  split; [reflexivity | split].
  - intros identifier metadata impl provider Hlast.
    unfold DeployedFlowMeta.f.
    by rewrite (allowed_providers_lookup _ _ _ impl Hallowed), Hlast.
  - intros identifier metadata impl Hdash.
    unfold DeployedFlowMeta.f.
    rewrite (allowed_providers_lookup _ _ _ impl Hallowed).
    by rewrite (last_named_dash impl providers Hdash), lookup_empty.
Qed.

Lemma from_deployment_dispatch_witness :
  exists from_deployment,
    DeployedFlowMeta.__new__
      [Sample2.rebuilding "argo-workflows"
         (fun identifier _ _ =>
            Return {| DeployedFlow.deployer := Sample.created "argo-workflows";
                      DeployedFlow.name := PStr identifier;
                      DeployedFlow.flow_name := PStr "MyFlow";
                      DeployedFlow.metadata := PStr "service" |})]
    = Return from_deployment
    /\ from_deployment "my-flow" None "argo_workflows"
       = Return (Some {| DeployedFlow.deployer := Sample.created "argo-workflows";
                         DeployedFlow.name := PStr "my-flow";
                         DeployedFlow.flow_name := PStr "MyFlow";
                         DeployedFlow.metadata := PStr "service" |})
    /\ from_deployment "my-flow" None "argo-workflows" = Return None.
Proof.
  destruct (from_deployment_dispatch
              [Sample2.rebuilding "argo-workflows"
                 (fun identifier _ _ =>
                    Return {| DeployedFlow.deployer :=
                                Sample.created "argo-workflows";
                              DeployedFlow.name := PStr identifier;
                              DeployedFlow.flow_name := PStr "MyFlow";
                              DeployedFlow.metadata := PStr "service" |})])
    as (from_deployment & Hnew & Hknown & Hdash).
  - intros p Hp. apply list_elem_of_In in Hp.
    destruct Hp as [<-|[]]. by eexists.
  - exists from_deployment. split; [exact Hnew | split].
    + by rewrite (Hknown "my-flow" None "argo_workflows" _ eq_refl).
    + by apply Hdash.
Defined.

(** ** [create] and [trigger], after the child *)

(** X13. When the payload of [create] is a JSON object and the return
    code read after it is zero, [_create] returns the handle of the
    base class: its name, flow name and metadata are the entries of the
    payload ([None] where absent), and its deployer is the deployer with
    the four attributes assigned from the payload. *)
Theorem create_returns_handle (E : Env) (kwargs : gmap string pyval)
    (self : DeployerImpl.t) (command : list string) (content : string)
    (command_obj : Runner.CommandManager) (m : gmap string pyval) :
  create_command E kwargs self = Return command ->
  read_payload E command self = (Return content, command_obj) ->
  json_loads E content = Some (PDict m) ->
  Runner.returncode command_obj = Some 0 ->
  _create E DeployedFlow.__init__ kwargs self
  = (Return {| DeployedFlow.deployer := payload_fields m self;
               DeployedFlow.name := default PNone (m !! "name");
               DeployedFlow.flow_name := default PNone (m !! "flow_name");
               DeployedFlow.metadata := default PNone (m !! "metadata") |},
     payload_fields m self).
Proof.
  intros Hcommand Hread Hjson Hcode.
  rewrite (_create_after_read E DeployedFlow.__init__ kwargs self command
             content command_obj Hcommand Hread), Hjson.
  unfold Runner.returncode_eq_0. by rewrite Hcode.
Qed.

Lemma create_returns_handle_witness :
  _create Sample.quiet DeployedFlow.__init__ ∅ (Sample.bound "step-functions")
  = (Return (Sample.flow "step-functions"), Sample.created "step-functions").
Proof.
  rewrite (create_returns_handle Sample.quiet ∅
             (Sample.bound "step-functions")
             ["flow.py"; "step-functions"; "create"] Sample.create_payload
             (Sample.exited 0)
             {["name" := PStr "my-flow"; "flow_name" := PStr "MyFlow";
               "metadata" := PStr "service"]});
    vm_compute; reflexivity.
Defined.

(** X14. [trigger] of an Argo flow, once the command is built and the
    payload read: it waits for the child, and on exit code zero the run
    is made of the payload, which is decoded then and only then; on any
    other exit code it raises the error of the trigger, naming the
    deployer's name, type and flow file, whatever the payload was, or
    [AttributeError] when the deployer has no name. *)
Theorem trigger_after_read (E : Env) (self : DeployedFlow.t)
    (kwargs : gmap string pyval) (group : Group) (command : list string)
    (content : string) (command_obj : Runner.CommandManager) :
  get_lower_level_group (DeployerImpl.api (DeployedFlow.deployer self))
    (DeployerImpl.top_level_kwargs (DeployedFlow.deployer self))
    (DeployerImpl.TYPE (DeployedFlow.deployer self))
    (DeployerImpl.deployer_kwargs (DeployedFlow.deployer self))
  = Return group ->
  kwargs !! "deployer_attribute_file" = None ->
  group "trigger"
    (<["deployer_attribute_file" := PStr (attribute_file E)]> kwargs)
  = Return command ->
  read_payload E command (DeployedFlow.deployer self)
  = (Return content, command_obj) ->
  ArgoWorkflowsDeployedFlow.trigger E self kwargs
  = if Runner.exit_status command_obj =? 0
    then TriggeredRun.__init__ E (DeployedFlow.deployer self) content
    else
      match DeployerImpl.name (DeployedFlow.deployer self) with
      | Some name =>
          Raise (Exception "Error triggering %s on %s for %s"
                   [name;
                    from_option PStr PNone
                      (DeployerImpl.TYPE (DeployedFlow.deployer self));
                    PStr (DeployerImpl.flow_file (DeployedFlow.deployer self))])
      | None => Raise AttributeError
      end.
Proof.
  intros Hgroup Hfresh Hcommand Hread.
  unfold read_payload, spawn in Hread.
  unfold ArgoWorkflowsDeployedFlow.trigger.
  rewrite Hgroup. simpl. rewrite (call_kw_fresh _ _ _ Hfresh). simpl.
  rewrite Hcommand. simpl. rewrite Hread. simpl.
  change (Runner.returncode_eq_0 (Runner.sync_wait command_obj))
    with (Runner.exit_status command_obj =? 0).
  destruct (Runner.exit_status command_obj =? 0); [done |].
  by destruct (DeployerImpl.name (DeployedFlow.deployer self)).
Qed.

Lemma trigger_after_read_witness :
  ArgoWorkflowsDeployedFlow.trigger
    (Sample.env (Sample.still_running 2) (Return "not json") (fun _ => None)
       (Return None))
    (Sample.flow "argo-workflows") ∅
  = Raise (Exception "Error triggering %s on %s for %s"
             [PStr "my-flow"; PStr "argo-workflows"; PStr "flow.py"]).
Proof.
  apply (trigger_after_read
           (Sample.env (Sample.still_running 2) (Return "not json")
              (fun _ => None) (Return None))
           (Sample.flow "argo-workflows") ∅
           (fun verb _ => Return ["flow.py"; "argo-workflows"; verb])
           ["flow.py"; "argo-workflows"; "trigger"] "not json"
           (Sample.still_running 2)); reflexivity.
Defined.

(** X15. A read of the result channel that fails, by timeout or
    otherwise, is the failure of the operation: [_create] raises what the
    read raised and leaves the deployer as it was, and [trigger] raises
    it too, without looking at the exit code. *)
Theorem read_failure_propagates (E : Env) (e : exn)
    (command : list string) (command_obj : Runner.CommandManager) :
  (forall create_class kwargs self,
     create_command E kwargs self = Return command ->
     read_payload E command self = (Raise e, command_obj) ->
     _create E create_class kwargs self = (Raise e, self))
  /\ (forall self kwargs group,
        get_lower_level_group (DeployerImpl.api (DeployedFlow.deployer self))
          (DeployerImpl.top_level_kwargs (DeployedFlow.deployer self))
          (DeployerImpl.TYPE (DeployedFlow.deployer self))
          (DeployerImpl.deployer_kwargs (DeployedFlow.deployer self))
        = Return group ->
        kwargs !! "deployer_attribute_file" = None ->
        group "trigger"
          (<["deployer_attribute_file" := PStr (attribute_file E)]> kwargs)
        = Return command ->
        read_payload E command (DeployedFlow.deployer self)
        = (Raise e, command_obj) ->
        ArgoWorkflowsDeployedFlow.trigger E self kwargs = Raise e).
Proof.
  split.
  - intros create_class kwargs self Hcommand Hread.
    by apply (_create_read_failed E create_class kwargs self command e
                command_obj).
  - intros self kwargs group Hgroup Hfresh Hcommand Hread.
    unfold read_payload, spawn in Hread.
    unfold ArgoWorkflowsDeployedFlow.trigger.
    rewrite Hgroup. simpl. rewrite (call_kw_fresh _ _ _ Hfresh). simpl.
    rewrite Hcommand. simpl. by rewrite Hread.
Qed.

Lemma read_failure_propagates_witness :
  let E := Sample.env (Sample.exited 0)
             (Raise (TimeoutError "Timeout while waiting for file content"))
             (fun _ => None) (Return None) in
  _create E DeployedFlow.__init__ ∅ (Sample.bound "step-functions")
  = (Raise (TimeoutError "Timeout while waiting for file content"),
     Sample.bound "step-functions").
Proof.
  intros E.
  apply (proj1 (read_failure_propagates E
                  (TimeoutError "Timeout while waiting for file content")
                  ["flow.py"; "step-functions"; "create"] (Sample.exited 0)));
    reflexivity.
Defined.

(** ** The production token of step-functions *)

(** X16. The production token of a step-functions flow is the second
    item of the pair the lookup gives. A lookup that finds nothing is a
    [TypeError] here, where the property of the Argo flow gives [None]
    for the same lookup. *)
Theorem sfn_production_token_lookup (E : Env) (instance : DeployedFlow.t)
    (name : pyval) :
  DeployerImpl.name (DeployedFlow.deployer instance) = Some name ->
  (forall workflow token,
     get_existing_deployment E name = Return (Some [workflow; token]) ->
     sfn_production_token (get_existing_deployment E) instance = Return token)
  /\ (get_existing_deployment E name = Return None ->
      sfn_production_token (get_existing_deployment E) instance
      = Raise TypeError
      /\ ArgoWorkflowsDeployedFlow.production_token E instance = Return PNone).
Proof.
  intros Hname. split.
  - intros workflow token Hlookup. unfold sfn_production_token.
    rewrite Hname. simpl. by rewrite Hlookup.
  - intros Hlookup. split.
    + unfold sfn_production_token. rewrite Hname. simpl. by rewrite Hlookup.
    + unfold ArgoWorkflowsDeployedFlow.production_token.
      rewrite Hname. simpl. by rewrite Hlookup.
Qed.

Lemma sfn_production_token_lookup_witness :
  sfn_production_token (get_existing_deployment Sample.quiet)
    (Sample.flow "step-functions")
  = Raise TypeError.
Proof.
  apply (proj2 (sfn_production_token_lookup Sample.quiet
                  (Sample.flow "step-functions") (PStr "my-flow") eq_refl)).
  reflexivity.
Defined.

(** ** Rebuilding a flow from its template *)

(** X17. What [from_deployment] reads in a template whose annotations
    are [ann]. Without the annotation [metaflow/parameters] it raises
    [TypeError]: the default of the lookup is a dictionary, which
    [json.loads] does not take. With that annotation a string, the
    parameters are what the string decodes to ([JSONDecodeError] when it
    does not decode), the flow name and the owner default to the empty
    string, and the branch and the project to [None]. A template without
    metadata has no annotation at all, and raises [TypeError] too. *)
Theorem annotations_of_template (E : Env)
    (workflow_template ann : gmap string pyval) :
  py_get (default (PDict ∅) (workflow_template !! "metadata")) "annotations"
    (PDict ∅)
  = Return (PDict ann) ->
  (ann !! "metaflow/parameters" = None ->
   ArgoFromDeployment.annotations E workflow_template = Raise TypeError)
  /\ (forall s, ann !! "metaflow/parameters" = Some (PStr s) ->
      ArgoFromDeployment.annotations E workflow_template
      = match json_loads E s with
        | Some parameters =>
            Return
              {| ArgoFromDeployment.flow_name :=
                   default (PStr EmptyString) (ann !! "metaflow/flow_name");
                 ArgoFromDeployment.username :=
                   default (PStr EmptyString) (ann !! "metaflow/owner");
                 ArgoFromDeployment.parameters := parameters;
                 ArgoFromDeployment.branch_name :=
                   default PNone (ann !! "metaflow/branch_name");
                 ArgoFromDeployment.project_name :=
                   default PNone (ann !! "metaflow/project_name") |}
        | None => Raise JSONDecodeError
        end)
  /\ (workflow_template !! "metadata" = None -> ann = ∅).
Proof.
  intros Hann. split; [|split].
  - intros Hnone. unfold ArgoFromDeployment.annotations.
    rewrite Hann. simpl. by rewrite Hnone.
  - intros s Hsome. unfold ArgoFromDeployment.annotations.
    rewrite Hann. simpl. rewrite Hsome. simpl.
    by destruct (json_loads E s).
  - intros Hnone. rewrite Hnone in Hann. simpl in Hann.
    rewrite lookup_empty in Hann. simpl in Hann. by injection Hann as <-.
Qed.

Lemma annotations_of_template_witness :
  ArgoFromDeployment.annotations Sample.quiet ∅ = Raise TypeError
  /\ ArgoFromDeployment.annotations Sample.quiet Sample2.template
     = Return {| ArgoFromDeployment.flow_name := PStr "MyFlow";
                 ArgoFromDeployment.username := PStr "alice";
                 ArgoFromDeployment.parameters := PDict ∅;
                 ArgoFromDeployment.branch_name := PStr "prod.v2";
                 ArgoFromDeployment.project_name := PStr "demo" |}.
Proof.
  split.
  - assert (py_get (default (PDict ∅) ((∅ : gmap string pyval) !! "metadata"))
              "annotations" (PDict ∅)
            = Return (PDict ∅)) as Hann by reflexivity.
    apply (proj1 (annotations_of_template Sample.quiet ∅ ∅ Hann)).
    reflexivity.
  - assert (py_get (default (PDict ∅) (Sample2.template !! "metadata"))
              "annotations" (PDict ∅)
            = Return (PDict {["metaflow/flow_name" := PStr "MyFlow";
                              "metaflow/owner" := PStr "alice";
                              "metaflow/parameters" := PStr "{}";
                              "metaflow/branch_name" := PStr "prod.v2";
                              "metaflow/project_name" := PStr "demo"]}))
      as Hann by reflexivity.
    rewrite (proj1 (proj2 (annotations_of_template Sample.quiet
                             Sample2.template _ Hann)) "{}" eq_refl).
    reflexivity.
Defined.

(** X18. The handle [from_deployment] makes of the rebuilt deployer:
    whatever the deployer had, assigned or not, the handle and the
    deployer have the identifier as name, the flow name of the
    annotations, and as metadata the argument of the call, or the current
    metadata when the call gives none; making the handle raises nothing,
    and the production token of the handle is looked up under the
    identifier. *)
Theorem from_deployment_stamps_identity (E : Env) (current_metadata : pyval)
    (identifier : string) (flow_name : pyval) (metadata : option string)
    (d : DeployerImpl.t) :
  exists handle d',
    ArgoFromDeployment.stamp current_metadata identifier flow_name metadata d
    = (Return handle, d')
    /\ DeployedFlow.deployer handle = d'
    /\ DeployedFlow.name handle = PStr identifier
    /\ DeployedFlow.flow_name handle = flow_name
    /\ DeployedFlow.metadata handle
       = from_option PStr current_metadata metadata
    /\ DeployerImpl.name d' = Some (PStr identifier)
    /\ DeployerImpl.flow_name d' = Some flow_name
    /\ DeployerImpl.metadata d'
       = Some (from_option PStr current_metadata metadata)
    /\ DeployerImpl.additional_info d' = DeployerImpl.additional_info d
    /\ DeployerImpl.env_vars d' = DeployerImpl.env_vars d
    /\ ArgoWorkflowsDeployedFlow.production_token E handle
       = except_TypeError
           (let! r := get_existing_deployment E (PStr identifier) in
            let! (_, token) := ArgoWorkflowsDeployedFlow.unpack_lookup r in
            Return token)
           (Return PNone).
Proof.
  eexists. eexists. split; [reflexivity |].
  by destruct metadata.
Qed.

(** ** From the [Deployer] to the bound deployer *)


